(** * Home-Dashboard: the CSV importer [import-csv.py]

    A shallow embedding of the script that loads
    [homefinance_transactions.csv] into the [transactions] table, and the
    properties of its specification.

    The script is one linear procedure that talks to three outside parties:
    the database session (pyodbc), the CSV file, and the operator at the
    prompt.  The embedding makes them explicit:

    - what the outside decides is an input: whether [pyodbc.connect]
      succeeds, what the operator types, what the file holds (or that it is
      missing or unreadable), which inserts the database rejects, how
      Python's builtin [float] reads a string;
    - what the script does is a computation in a state-and-exception monad
      whose state holds the table as the session sees it, the committed
      (durable) table, the local counters of [import_csv_data], and the
      chronological trace of every statement executed and every line
      printed.

    Scope of the model: in [main], once the connection is established the
    session stays up, so that the count, truncate, commit, select and close
    statements succeed and only an INSERT can be rejected, and the operator
    does answer the prompt; [main_faulty] is the same script where the
    count, the prompt, the TRUNCATE, the commits and the sample SELECT can
    fail too.  Printing, creating the cursor and closing the connection do
    not fail in either.  What [csv.DictReader] stores under the key [None]
    for a line with too many fields is never read by the script and is left
    out of the records. *)

From Stdlib Require Import ZArith Lia Ascii String List Sorted Permutation.
From stdpp Require Import gmap strings list.
Import ListNotations.

Local Open Scope string_scope.
Local Open Scope list_scope.

(** ** Python values and exceptions *)

(** A value of a [csv.DictReader] row: a string, or [None] where the line
    had fewer fields than the header ([restval]). *)
Inductive pyval : Type :=
| PyNone
| PyStr (s : string).

(** The exceptions that occur in the script.  [SystemExit] is raised by
    [sys.exit]; it is a [BaseException] and not an [Exception], so an
    [except Exception] clause lets it through. *)
Inductive exn : Type :=
| SystemExit (code : Z)
| KeyError (key : string)
| ValueError
| TypeError
| FileNotFoundError
| ReadError        (* any other failure of [open] or of reading the file *)
| EOFError         (* [input] on a standard input that is closed *)
| DbError.         (* [pyodbc.Error] *)

Definition is_Exception (e : exn) : bool :=
  match e with
  | SystemExit _ => false
  | _ => true
  end.

Inductive result (A : Type) : Type :=
| Ok (a : A)
| Raise (e : exn).
Arguments Ok {A} a.
Arguments Raise {A} e.

Definition rbind {A B} (r : result A) (k : A -> result B) : result B :=
  match r with
  | Ok a => k a
  | Raise e => Raise e
  end.

Declare Scope py_scope.
Delimit Scope py_scope with py.
Notation "'let?' x ':=' e 'in' k" := (rbind e (fun x => k))
  (at level 10, x name, e at level 100, k at level 200) : py_scope.
Local Open Scope py_scope.

(** [row[key]]: a [KeyError] when the header has no such column. *)
Definition getitem (row : gmap string pyval) (key : string) : result pyval :=
  match row !! key with
  | Some v => Ok v
  | None => Raise (KeyError key)
  end.

(** [v == s] for a string literal [s]; [None] equals no string. *)
Definition py_eq (v : pyval) (s : string) : bool :=
  match v with
  | PyStr t => String.eqb t s
  | PyNone => false
  end.

(** [str.lower], on the ASCII letters; the bytes of other characters are
    left as they are (no character outside ASCII lowers to one of the
    letters of ['yes']). *)
Definition lower_ascii (c : ascii) : ascii :=
  let n := nat_of_ascii c in
  if (65 <=? n)%nat && (n <=? 90)%nat then ascii_of_nat (n + 32) else c.

Fixpoint lower (s : string) : string :=
  match s with
  | EmptyString => EmptyString
  | String c rest => String (lower_ascii c) (lower rest)
  end.

(** What [open(CSV_FILE)] and the iteration of [csv.DictReader] give. *)
Inductive csv_file : Type :=
| Missing      (* [open] raises [FileNotFoundError] *)
| OpenError    (* [open] raises another error: a directory, no permission *)
| Readable (rows : list (gmap string pyval)) (eof : bool).
               (* the records read; with [eof = false] the iteration then
                  raises (bad encoding, [csv.Error]) instead of ending *)

(** What the outside decides during one run. *)
Record world : Type := {
  connect_ok : bool;     (* [pyodbc.connect] succeeds *)
  response : string;     (* the line the operator types at the prompt *)
  csv : csv_file
}.

(** The three places where the script commits. *)
Inductive commit_site : Type :=
| AfterTruncate         (* line 48 *)
| AfterBatch (n : nat)  (* line 103, with [imported_count = n] *)
| Final.                (* line 111 *)

(** What else the outside may decide during one run: whether the count
    (line 40), the TRUNCATE (line 47), each commit and the sample SELECT
    (line 128) succeed, and whether standard input is open at the prompt
    (line 45). *)
Record faults : Type := {
  count_ok : bool;
  stdin_open : bool;
  truncate_ok : bool;
  commit_ok : commit_site -> bool;
  select_ok : bool
}.

Definition no_faults : faults :=
  {| count_ok := true; stdin_open := true; truncate_ok := true;
     commit_ok := fun _ => true; select_ok := true |}.

(** ** Values bound to the INSERT statement *)

Section Values.

(** The numeric type that Python's [float] produces. *)
Context {num : Type}.

Inductive sqlval : Type :=
| SqlNull
| SqlStr (s : string)
| SqlInt (z : Z)
| SqlFloat (x : num).

(** The sixteen positional parameters of [insert_query], in column order. *)
Record params : Type := {
  transaction_id : sqlval;
  transaction_date : sqlval;
  transaction_time : sqlval;
  account_id : sqlval;
  account_name : sqlval;
  account_type : sqlval;
  account_owner : sqlval;
  description : sqlval;
  category : sqlval;
  subcategory : sqlval;
  amount : sqlval;
  transaction_type : sqlval;
  balance_after : sqlval;
  is_recurring : sqlval;
  recurring_frequency : sqlval;
  notes : sqlval
}.

End Values.

Arguments sqlval : clear implicits.
Arguments params : clear implicits.

(** The spellings of "yes" in small letters and capitals. *)
Definition yes_spellings : list string :=
  ["yes"; "yeS"; "yEs"; "yES"; "Yes"; "YeS"; "YEs"; "YES"].

(** What is fixed outside the script: the builtin [float] on strings
    ([None] stands for the [ValueError] it raises on a string that is not a
    number); whether the database accepts an INSERT, given the table the
    session sees (constraints of the schema, conversion to the column
    types); the order of the [transaction_date] column for [ORDER BY]. *)
Class Platform : Type := {
  num : Type;
  float : string -> option num;
  db_accepts : list (params num) -> params num -> bool;
  date_le : sqlval num -> sqlval num -> bool
}.

Section Importer.

Context {P : Platform}.

(** How pyodbc binds a row value that the script passes through unchanged. *)
Definition bind_param (v : pyval) : sqlval num :=
  match v with
  | PyNone => SqlNull
  | PyStr s => SqlStr s
  end.

(** [float(v)]: [TypeError] on [None], [ValueError] on a string that is not
    a number. *)
Definition py_float (v : pyval) : result num :=
  match v with
  | PyNone => Raise TypeError
  | PyStr s => match float s with
               | Some x => Ok x
               | None => Raise ValueError
               end
  end.

(** Line 76:
    [None if row['is_recurring'] == '' else (1 if row['is_recurring'] == 'True' else 0)] *)
Definition convert_is_recurring (v : pyval) : sqlval num :=
  if py_eq v "" then SqlNull
  else if py_eq v "True" then SqlInt 1 else SqlInt 0.

(** Lines 77 and 78: [None if row[k] == '' else row[k]]. *)
Definition convert_nullable (v : pyval) : sqlval num :=
  if py_eq v "" then SqlNull else bind_param v.

(** Line 79: [None if row['balance_after'] == '' else float(row['balance_after'])]. *)
Definition convert_balance_after (v : pyval) : result (sqlval num) :=
  if py_eq v "" then Ok SqlNull
  else let? x := py_float v in Ok (SqlFloat x).

(** Lines 76-98: the conversions and the parameter tuple, evaluated in the
    order Python evaluates them.  [Raise] is the exception that leaves the
    [try] body before [cursor.execute] is called. *)
Definition convert_row (row : gmap string pyval) : result (params num) :=
  let? v_is_recurring := getitem row "is_recurring" in
  let? v_recurring_frequency := getitem row "recurring_frequency" in
  let? v_notes := getitem row "notes" in
  let? v_balance_after := getitem row "balance_after" in
  let? c_balance_after := convert_balance_after v_balance_after in
  let? v_transaction_id := getitem row "transaction_id" in
  let? v_transaction_date := getitem row "transaction_date" in
  let? v_transaction_time := getitem row "transaction_time" in
  let? v_account_id := getitem row "account_id" in
  let? v_account_name := getitem row "account_name" in
  let? v_account_type := getitem row "account_type" in
  let? v_account_owner := getitem row "account_owner" in
  let? v_description := getitem row "description" in
  let? v_category := getitem row "category" in
  let? v_subcategory := getitem row "subcategory" in
  let? v_amount := getitem row "amount" in
  let? c_amount := py_float v_amount in
  let? v_transaction_type := getitem row "transaction_type" in
  Ok {| transaction_id := bind_param v_transaction_id;
        transaction_date := bind_param v_transaction_date;
        transaction_time := bind_param v_transaction_time;
        account_id := bind_param v_account_id;
        account_name := bind_param v_account_name;
        account_type := bind_param v_account_type;
        account_owner := bind_param v_account_owner;
        description := bind_param v_description;
        category := bind_param v_category;
        subcategory := bind_param v_subcategory;
        amount := SqlFloat c_amount;
        transaction_type := bind_param v_transaction_type;
        balance_after := c_balance_after;
        is_recurring := convert_is_recurring v_is_recurring;
        recurring_frequency := convert_nullable v_recurring_frequency;
        notes := convert_nullable v_notes |}.

(** ** The database session, the state and the trace *)

(** One constructor for each [print] of the script. *)
Inductive message : Type :=
| MsgRule                              (* ['='*50] *)
| MsgTitle                             (* line 137 *)
| MsgConnected                         (* line 29 *)
| MsgConnectError                      (* line 32 *)
| MsgTableContains (n : nat)           (* line 44 *)
| MsgTableCleared                      (* line 49 *)
| MsgImportCancelled                   (* line 51 *)
| MsgReadingFrom                       (* line 70 *)
| MsgImporting                         (* line 71 *)
| MsgProgress (n : nat)                (* line 104 *)
| MsgRowError (n : nat) (e : exn)      (* line 108 *)
| MsgCsvNotFound                       (* line 114 *)
| MsgCsvReadError (e : exn)            (* line 117 *)
| MsgCompleted                         (* line 121 *)
| MsgImported (n : nat)                (* line 122 *)
| MsgErrors (n : nat)                  (* line 124 *)
| MsgSampleHeader                      (* line 129 *)
| MsgDashes                            (* line 130 *)
| MsgSample (tid date descr amt : sqlval num)  (* line 132 *)
| MsgClosed.                           (* line 146 *)

Inductive event : Type :=
| EvPrint (m : message)
| EvConnect (ok : bool)
| EvSelectCount (n : nat)
| EvInput (answer : string)
| EvTruncate
| EvCommit
| EvInsert (p : params num) (ok : bool)
| EvSelectTop5 (rows : list (params num))
| EvClose.

Record state : Type := {
  table : list (params num);        (* the table as the session sees it *)
  committed : list (params num);    (* the table as last committed *)
  conn_open : bool;
  imported_count : nat;       (* local of [import_csv_data] *)
  error_count : nat;          (* local of [import_csv_data] *)
  trace : list event          (* oldest first *)
}.

Definition M (A : Type) : Type := state -> result A * state.

Definition ret {A} (a : A) : M A := fun s => (Ok a, s).

Definition raise {A} (e : exn) : M A := fun s => (Raise e, s).

Definition bind {A B} (m : M A) (k : A -> M B) : M B :=
  fun s => match m s with
           | (Ok a, s') => k a s'
           | (Raise e, s') => (Raise e, s')
           end.

Notation "x <- e ;; k" := (bind e (fun x => k))
  (at level 100, e at next level, right associativity) : py_scope.
Notation "e ;; k" := (bind e (fun _ => k))
  (at level 100, right associativity) : py_scope.

Definition lift {A} (r : result A) : M A := fun s => (r, s).

(** [try: body except ...: handler]: [handler e] is [None] when no clause
    matches [e], which then propagates. *)
Definition try_except {A} (body : M A) (handler : exn -> option (M A)) : M A :=
  fun s => match body s with
           | (Ok a, s') => (Ok a, s')
           | (Raise e, s') => match handler e with
                              | Some h => h s'
                              | None => (Raise e, s')
                              end
           end.

(** [try: body finally: cleanup]: the cleanup runs however the body ends,
    and the body's outcome is kept unless the cleanup itself raises. *)
Definition try_finally {A} (body : M A) (cleanup : M unit) : M A :=
  fun s => match body s with
           | (r, s') => match cleanup s' with
                        | (Ok _, s'') => (r, s'')
                        | (Raise e, s'') => (Raise e, s'')
                        end
           end.

Definition log (e : event) (s : state) : state :=
  {| table := table s; committed := committed s; conn_open := conn_open s;
     imported_count := imported_count s; error_count := error_count s;
     trace := trace s ++ [e] |}.

Definition set_table (t : list (params num)) (s : state) : state :=
  {| table := t; committed := committed s; conn_open := conn_open s;
     imported_count := imported_count s; error_count := error_count s;
     trace := trace s |}.

Definition set_committed (t : list (params num)) (s : state) : state :=
  {| table := table s; committed := t; conn_open := conn_open s;
     imported_count := imported_count s; error_count := error_count s;
     trace := trace s |}.

Definition set_conn_open (b : bool) (s : state) : state :=
  {| table := table s; committed := committed s; conn_open := b;
     imported_count := imported_count s; error_count := error_count s;
     trace := trace s |}.

Definition set_counts (i e : nat) (s : state) : state :=
  {| table := table s; committed := committed s; conn_open := conn_open s;
     imported_count := i; error_count := e;
     trace := trace s |}.

(** Reading and assigning the locals. *)
Definition read {A} (f : state -> A) : M A := fun s => (Ok (f s), s).

Definition assign_counts (i e : state -> nat) : M unit :=
  fun s => (Ok tt, set_counts (i s) (e s) s).

Definition print (m : message) : M unit := fun s => (Ok tt, log (EvPrint m) s).

(** [sys.exit(code)] *)
Definition sys_exit {A} (code : Z) : M A := raise (SystemExit code).

(** [pyodbc.connect(connection_string)] *)
Definition connect (w : world) : M unit :=
  fun s => if connect_ok w
           then (Ok tt, log (EvConnect true) (set_conn_open true s))
           else (Raise DbError, log (EvConnect false) s).

(** [cursor.execute("SELECT COUNT(*) FROM transactions")] and
    [cursor.fetchone()[0]] *)
Definition select_count : M nat :=
  fun s => (Ok (length (table s)), log (EvSelectCount (length (table s))) s).

(** [input(...)] *)
Definition input (w : world) : M string :=
  fun s => (Ok (response w), log (EvInput (response w)) s).

(** [cursor.execute("TRUNCATE TABLE transactions")] *)
Definition truncate_table : M unit :=
  fun s => (Ok tt, log EvTruncate (set_table [] s)).

(** [conn.commit()] *)
Definition commit : M unit :=
  fun s => (Ok tt, log EvCommit (set_committed (table s) s)).

(** [cursor.execute(insert_query, p)]: the row is appended, or the database
    rejects it with a [pyodbc.Error]. *)
Definition execute_insert (p : params num) : M unit :=
  fun s => if db_accepts (table s) p
           then (Ok tt, log (EvInsert p true) (set_table (table s ++ [p]) s))
           else (Raise DbError, log (EvInsert p false) s).

(** [conn.close()]: what was not committed is rolled back. *)
Definition close : M unit :=
  fun s => (Ok tt, log EvClose (set_conn_open false (set_table (committed s) s))).

(** [ORDER BY transaction_date]: a stable insertion sort on the date column. *)
Fixpoint insert_by_date (p : params num) (l : list (params num)) : list (params num) :=
  match l with
  | [] => [p]
  | q :: rest =>
      if date_le (transaction_date p) (transaction_date q)
      then p :: q :: rest
      else q :: insert_by_date p rest
  end.

Fixpoint order_by_date (l : list (params num)) : list (params num) :=
  match l with
  | [] => []
  | p :: rest => insert_by_date p (order_by_date rest)
  end.

(** [cursor.execute("SELECT TOP 5 * FROM transactions ORDER BY transaction_date")]
    and [cursor.fetchall()] *)
Definition select_top5 : M (list (params num)) :=
  fun s => let rows := firstn 5 (order_by_date (table s)) in
           (Ok rows, log (EvSelectTop5 rows) s).

(** ** The script *)

(** Lines 17-33. *)
Definition get_connection (w : world) : M unit :=
  try_except
    (connect w ;;
     print MsgConnected ;;
     ret tt)
    (fun e => match e with
              | DbError => Some (print MsgConnectError ;; sys_exit 1)
              | _ => None
              end).

(** Lines 74-108: the body of the [for] loop, for one record. *)
Definition import_row (row : gmap string pyval) : M unit :=
  try_except
    (p <- lift (convert_row row) ;;
     execute_insert p ;;
     assign_counts (fun s => imported_count s + 1) error_count ;;
     n <- read imported_count ;;
     if (n mod 100 =? 0)%nat
     then commit ;; print (MsgProgress n)
     else ret tt)
    (fun e => if is_Exception e
              then Some
                (assign_counts imported_count (fun s => error_count s + 1) ;;
                 n <- read (fun s => imported_count s + error_count s) ;;
                 print (MsgRowError n e))
              else None).

(** Line 73: [for row in csv_reader], over the records read. *)
Fixpoint for_rows (rows : list (gmap string pyval)) : M unit :=
  match rows with
  | [] => ret tt
  | row :: rest => import_row row ;; for_rows rest
  end.

(** Lines 67-111: the [with open(...)] block. *)
Definition read_and_insert (f : csv_file) : M unit :=
  match f with
  | Missing => raise FileNotFoundError
  | OpenError => raise ReadError
  | Readable rows eof =>
      print MsgReadingFrom ;;
      print MsgImporting ;;
      for_rows rows ;;
      (if eof then ret tt else raise ReadError) ;;
      commit
  end.

(** Lines 131-132: one line for each row fetched. *)
Fixpoint print_samples (rows : list (params num)) : M unit :=
  match rows with
  | [] => ret tt
  | r :: rest =>
      print (MsgSample (transaction_id r) (transaction_date r)
                       (description r) (amount r)) ;;
      print_samples rest
  end.

(** Lines 120-132. *)
Definition report : M unit :=
  print MsgRule ;;
  print MsgCompleted ;;
  i <- read imported_count ;;
  print (MsgImported i) ;;
  e <- read error_count ;;
  (if (0 <? e)%nat then print (MsgErrors e) else ret tt) ;;
  print MsgRule ;;
  rows <- select_top5 ;;
  print MsgSampleHeader ;;
  print MsgDashes ;;
  print_samples rows.

(** Lines 54-132: what [import_csv_data] does once the table is empty or
    has been cleared. *)
Definition import_and_report (w : world) : M unit :=
  assign_counts (fun _ => 0) (fun _ => 0) ;;
  try_except
    (read_and_insert (csv w))
    (fun e => match e with
              | FileNotFoundError => Some (print MsgCsvNotFound ;; sys_exit 1)
              | _ => if is_Exception e
                     then Some (print (MsgCsvReadError e) ;; sys_exit 1)
                     else None
              end) ;;
  report.

(** Lines 35-132. *)
Definition import_csv_data (w : world) : M unit :=
  existing_count <- select_count ;;
  if (0 <? existing_count)%nat then
    print (MsgTableContains existing_count) ;;
    answer <- input w ;;
    if String.eqb (lower answer) "yes" then
      truncate_table ;;
      commit ;;
      print MsgTableCleared ;;
      import_and_report w
    else
      print MsgImportCancelled ;;
      ret tt
  else import_and_report w.

(** Lines 134-146. *)
Definition main (w : world) : M unit :=
  print MsgRule ;;
  print MsgTitle ;;
  print MsgRule ;;
  get_connection w ;;
  try_finally
    (import_csv_data w)
    (close ;; print MsgClosed).

(** The state in which the process starts, given what the table holds. *)
Definition initial (tbl : list (params num)) : state :=
  {| table := tbl; committed := tbl; conn_open := false;
     imported_count := 0; error_count := 0; trace := [] |}.

(** The exit code of the process: 0 when [main] returns, the argument of
    [sys.exit], and 1 for an exception nobody caught. *)
Definition exit_code {A} (r : result A) : Z :=
  match r with
  | Ok _ => 0
  | Raise (SystemExit code) => code
  | Raise _ => 1
  end.

(** ** The script on a session whose statements can fail

    [main] above is the run in which, once the connection is
    established, every statement but an INSERT succeeds and the operator
    answers.  Here the count, the prompt, the TRUNCATE, the commits and the
    sample SELECT can raise as well, as [faults] decides; the statement
    that fails raises [pyodbc.Error] (the prompt, [EOFError]) and changes
    nothing.  The script is the same, line for line. *)

Definition select_count_faulty (f : faults) : M nat :=
  if count_ok f then select_count else raise DbError.

Definition input_faulty (f : faults) (w : world) : M string :=
  if stdin_open f then input w else raise EOFError.

Definition truncate_table_faulty (f : faults) : M unit :=
  if truncate_ok f then truncate_table else raise DbError.

Definition commit_faulty (f : faults) (site : commit_site) : M unit :=
  if commit_ok f site then commit else raise DbError.

Definition select_top5_faulty (f : faults) : M (list (params num)) :=
  if select_ok f then select_top5 else raise DbError.

(** Lines 74-108.  A commit that fails at line 103 is caught at line 106
    like any other exception of the body. *)
Definition import_row_faulty (f : faults) (row : gmap string pyval) : M unit :=
  try_except
    (p <- lift (convert_row row) ;;
     execute_insert p ;;
     assign_counts (fun s => imported_count s + 1) error_count ;;
     n <- read imported_count ;;
     if (n mod 100 =? 0)%nat
     then commit_faulty f (AfterBatch n) ;; print (MsgProgress n)
     else ret tt)
    (fun e => if is_Exception e
              then Some
                (assign_counts imported_count (fun s => error_count s + 1) ;;
                 n <- read (fun s => imported_count s + error_count s) ;;
                 print (MsgRowError n e))
              else None).

(** Line 73. *)
Fixpoint for_rows_faulty (f : faults) (rows : list (gmap string pyval)) : M unit :=
  match rows with
  | [] => ret tt
  | row :: rest => import_row_faulty f row ;; for_rows_faulty f rest
  end.

(** Lines 67-111. *)
Definition read_and_insert_faulty (f : faults) (file : csv_file) : M unit :=
  match file with
  | Missing => raise FileNotFoundError
  | OpenError => raise ReadError
  | Readable rows eof =>
      print MsgReadingFrom ;;
      print MsgImporting ;;
      for_rows_faulty f rows ;;
      (if eof then ret tt else raise ReadError) ;;
      commit_faulty f Final
  end.

(** Lines 120-132. *)
Definition report_faulty (f : faults) : M unit :=
  print MsgRule ;;
  print MsgCompleted ;;
  i <- read imported_count ;;
  print (MsgImported i) ;;
  e <- read error_count ;;
  (if (0 <? e)%nat then print (MsgErrors e) else ret tt) ;;
  print MsgRule ;;
  rows <- select_top5_faulty f ;;
  print MsgSampleHeader ;;
  print MsgDashes ;;
  print_samples rows.

(** Lines 54-132. *)
Definition import_and_report_faulty (f : faults) (w : world) : M unit :=
  assign_counts (fun _ => 0) (fun _ => 0) ;;
  try_except
    (read_and_insert_faulty f (csv w))
    (fun e => match e with
              | FileNotFoundError => Some (print MsgCsvNotFound ;; sys_exit 1)
              | _ => if is_Exception e
                     then Some (print (MsgCsvReadError e) ;; sys_exit 1)
                     else None
              end) ;;
  report_faulty f.

(** Lines 35-132. *)
Definition import_csv_data_faulty (f : faults) (w : world) : M unit :=
  existing_count <- select_count_faulty f ;;
  if (0 <? existing_count)%nat then
    print (MsgTableContains existing_count) ;;
    answer <- input_faulty f w ;;
    if String.eqb (lower answer) "yes" then
      truncate_table_faulty f ;;
      commit_faulty f AfterTruncate ;;
      print MsgTableCleared ;;
      import_and_report_faulty f w
    else
      print MsgImportCancelled ;;
      ret tt
  else import_and_report_faulty f w.

(** Lines 134-146. *)
Definition main_faulty (f : faults) (w : world) : M unit :=
  print MsgRule ;;
  print MsgTitle ;;
  print MsgRule ;;
  get_connection w ;;
  try_finally
    (import_csv_data_faulty f w)
    (close ;; print MsgClosed).

(** How lines 54-132 end on a session whose statements can fail. *)
Definition import_outcome (f : faults) (w : world) : result unit :=
  match csv w with
  | Readable _ true =>
      if commit_ok f Final
      then if select_ok f then Ok tt else Raise DbError
      else Raise (SystemExit 1)
  | _ => Raise (SystemExit 1)
  end.

(** ** Reading a trace *)

(** The final state of a computation. *)
Definition exec {A} (m : M A) (s : state) : state := snd (m s).

(** The events that a computation adds to the trace. *)
Definition emitted {A} (m : M A) (s : state) : list event :=
  drop (length (trace s)) (trace (exec m s)).

Definition is_insert (e : event) : bool :=
  match e with
  | EvInsert _ _ => true
  | _ => false
  end.

Definition is_commit (e : event) : bool :=
  match e with
  | EvCommit => true
  | _ => false
  end.

Definition is_truncate (e : event) : bool :=
  match e with
  | EvTruncate => true
  | _ => false
  end.

(** The statements sent to the database, as opposed to console output. *)
Definition is_statement (e : event) : bool :=
  match e with
  | EvPrint _ | EvInput _ => false
  | _ => true
  end.

(** The rows that INSERT statements of the trace added, in order. *)
Fixpoint inserted (tr : list event) : list (params num) :=
  match tr with
  | [] => []
  | EvInsert p true :: rest => p :: inserted rest
  | _ :: rest => inserted rest
  end.

(** Every record of the file converts, and the database accepts each in
    turn, starting from the table [tbl]. *)
Fixpoint rows_accepted (tbl : list (params num)) (rows : list (gmap string pyval)) : Prop :=
  match rows with
  | [] => True
  | row :: rest =>
      exists p, convert_row row = Ok p /\ db_accepts tbl p = true /\
                rows_accepted (tbl ++ [p]) rest
  end.

(** The state after a record that raised [e]: in the conversion, or in
    the INSERT of the parameters [n]. *)
Definition after_error (n : option (params num)) (e : exn) (s : state) : state :=
  let s1 := match n with
            | Some p => log (EvInsert p false) s
            | None => s
            end in
  log (EvPrint (MsgRowError (imported_count s + (error_count s + 1)) e))
      (set_counts (imported_count s) (error_count s + 1) s1).

(** The state after a record that was inserted. *)
Definition after_insert (p : params num) (s : state) : state :=
  let s1 := set_counts (imported_count s + 1) (error_count s)
              (log (EvInsert p true) (set_table (table s ++ [p]) s)) in
  if (imported_count s1 mod 100 =? 0)%nat
  then log (EvPrint (MsgProgress (imported_count s1)))
           (log EvCommit (set_committed (table s1) s1))
  else s1.

(** What one pass of the loop body emits: one of four shapes. *)
Inductive row_events (c : nat) : list event -> Prop :=
| row_convert_error e :
    forall n, row_events c [EvPrint (MsgRowError n e)]
| row_rejected p :
    forall n, row_events c [EvInsert p false; EvPrint (MsgRowError n DbError)]
| row_inserted p :
    (c + 1) mod 100 <> 0 -> row_events c [EvInsert p true]
| row_inserted_commit p :
    (c + 1) mod 100 = 0 ->
    row_events c [EvInsert p true; EvCommit; EvPrint (MsgProgress (c + 1))].

(** The state with further events on its trace. *)
Definition logs (evs : list event) (s : state) : state :=
  {| table := table s; committed := committed s; conn_open := conn_open s;
     imported_count := imported_count s; error_count := error_count s;
     trace := trace s ++ evs |}.

Definition sample_line (r : params num) : event :=
  EvPrint (MsgSample (transaction_id r) (transaction_date r)
                     (description r) (amount r)).

(** What the report prints and asks, from the state it starts in. *)
Definition report_events (s : state) : list event :=
  let rows := firstn 5 (order_by_date (table s)) in
  [EvPrint MsgRule; EvPrint MsgCompleted; EvPrint (MsgImported (imported_count s))]
  ++ (if (0 <? error_count s)%nat then [EvPrint (MsgErrors (error_count s))] else [])
  ++ [EvPrint MsgRule; EvSelectTop5 rows; EvPrint MsgSampleHeader; EvPrint MsgDashes]
  ++ map sample_line rows.

(** The state when [import_csv_data] is entered on a connection that was
    established, and the state when [main] ends after it left in [s]. *)
Definition connected (tbl : list (params num)) : state :=
  logs [EvPrint MsgRule; EvPrint MsgTitle; EvPrint MsgRule;
        EvConnect true; EvPrint MsgConnected]
       (set_conn_open true (initial tbl)).

Definition closed (s : state) : state :=
  logs [EvClose; EvPrint MsgClosed]
       (set_conn_open false (set_table (committed s) s)).

(** The import goes past the prompt: there is none, or the answer is yes. *)
Definition proceeds (w : world) (tbl : list (params num)) : Prop :=
  tbl = [] \/ lower (response w) = "yes".

(** The file is there and is read to its end. *)
Definition read_to_end (f : csv_file) : Prop :=
  exists rows, f = Readable rows true.

(** The events of the import: statements of the loop and console output. *)
Definition import_event (ev : event) : Prop :=
  match ev with
  | EvInsert _ _ | EvCommit | EvPrint _ | EvSelectTop5 _ => True
  | _ => False
  end.

(** Two rows in the order of their dates. *)
Definition date_order (a b : params num) : Prop :=
  date_le (transaction_date a) (transaction_date b) = true.

(** Whether a commit is due right after the events [pre] of the loop, [c]
    rows having been imported before them: the last of [pre] is a
    successful INSERT, and it brought the number of imported rows to a
    multiple of 100. *)
Definition commit_due (c : nat) (pre : list event) : bool :=
  match last pre with
  | Some (EvInsert _ true) => ((c + length (inserted pre)) mod 100 =? 0)%nat
  | _ => false
  end.

(** Two states with the same table, committed table and imported count,
    reached by the same statements: they differ in console output and in
    the error count at most. *)
Definition same_effects (s s' : state) : Prop :=
  table s = table s' /\
  committed s = committed s' /\
  imported_count s = imported_count s' /\
  List.filter is_statement (trace s) = List.filter is_statement (trace s').

(** The lines of the report that show the error count, and a sample row. *)
Definition is_error_count_line (ev : event) : bool :=
  match ev with
  | EvPrint (MsgErrors _) => true
  | _ => false
  end.

Definition is_sample_line (ev : event) : bool :=
  match ev with
  | EvPrint (MsgSample _ _ _ _) => true
  | _ => false
  end.

(** Two states with the same table, committed table and imported count;
    their traces and error counts may differ. *)
Definition same_tables (s s' : state) : Prop :=
  table s = table s' /\
  committed s = committed s' /\
  imported_count s = imported_count s'.


(** The sixteen columns of the header. *)
Definition columns : list string :=
  ["transaction_id"; "transaction_date"; "transaction_time"; "account_id";
   "account_name"; "account_type"; "account_owner"; "description";
   "category"; "subcategory"; "amount"; "transaction_type";
   "balance_after"; "is_recurring"; "recurring_frequency"; "notes"].

End Importer.

Notation "x <- e ;; k" := (bind e (fun x => k))
  (at level 100, e at next level, right associativity) : py_scope.
Notation "e ;; k" := (bind e (fun _ => k))
  (at level 100, right associativity) : py_scope.

(** ** A concrete platform, for the examples

    [float_plain] reads the plain decimal literals among the strings that
    Python's [float] accepts (an optional sign, digits, at most one point)
    as an unscaled integer and a number of decimal places. *)

Definition digit_of (c : ascii) : option Z :=
  let n := nat_of_ascii c in
  if (48 <=? n)%nat && (n <=? 57)%nat then Some (Z.of_nat (n - 48)) else None.

Fixpoint read_decimal (s : string) (seen_digit point : bool) (m : Z) (k : nat)
  : option (Z * nat) :=
  match s with
  | EmptyString => if seen_digit then Some (m, k) else None
  | String c rest =>
      if Ascii.eqb c "."
      then if point then None else read_decimal rest seen_digit true m k
      else match digit_of c with
           | Some d => read_decimal rest true point (10 * m + d)
                                    (if point then S k else k)
           | None => None
           end
  end.

Definition float_plain (s : string) : option (Z * nat) :=
  match s with
  | String "-" rest =>
      match read_decimal rest false false 0 0 with
      | Some (m, k) => Some (- m, k)%Z
      | None => None
      end
  | String "+" rest => read_decimal rest false false 0 0
  | _ => read_decimal s false false 0 0
  end.

(** ISO dates compare as strings; NULL sorts first. *)
Definition date_le_iso (a b : sqlval (Z * nat)) : bool :=
  match a, b with
  | SqlNull, _ => true
  | _, SqlNull => false
  | SqlStr x, SqlStr y => String.leb x y
  | _, _ => true
  end.

Definition sql_str_eqb (a b : sqlval (Z * nat)) : bool :=
  match a, b with
  | SqlStr x, SqlStr y => String.eqb x y
  | _, _ => false
  end.

(** A schema whose [transaction_id] is a primary key. *)
Definition unique_id (tbl : list (params (Z * nat))) (p : params (Z * nat)) : bool :=
  negb (existsb (fun q => sql_str_eqb (transaction_id q) (transaction_id p)) tbl).

(** A schema without constraints. *)
Definition plain : Platform :=
  {| num := Z * nat; float := float_plain;
     db_accepts := fun _ _ => true; date_le := date_le_iso |}.

Definition keyed : Platform :=
  {| num := Z * nat; float := float_plain;
     db_accepts := unique_id; date_le := date_le_iso |}.

(** A record of the file with the sixteen columns of the header. *)
Definition record (id date amt bal recurring freq note : string)
  : gmap string pyval :=
  list_to_map
    [("transaction_id", PyStr id); ("transaction_date", PyStr date);
     ("transaction_time", PyStr "08:30:00"); ("account_id", PyStr "ACC-1");
     ("account_name", PyStr "Checking"); ("account_type", PyStr "checking");
     ("account_owner", PyStr "Joint"); ("description", PyStr "Groceries");
     ("category", PyStr "Food"); ("subcategory", PyStr "Market");
     ("amount", PyStr amt); ("transaction_type", PyStr "Expense");
     ("balance_after", PyStr bal); ("is_recurring", PyStr recurring);
     ("recurring_frequency", PyStr freq); ("notes", PyStr note)].


(** Three records: two that convert, and one whose amount has a comma
    where [float] wants a point. *)
Definition groceries : gmap string pyval :=
  record "T1" "2024-01-02" "-12.50" "" "True" "" "".

Definition salary : gmap string pyval :=
  record "T2" "2024-01-01" "2500" "3100.75" "False" "Monthly" "paid".

Definition garbled : gmap string pyval :=
  record "T3" "2024-01-03" "12,50" "" "" "" "".

(** What the two good records convert to. *)
Definition groceries_params : params (Z * nat) :=
  {| transaction_id := SqlStr "T1"; transaction_date := SqlStr "2024-01-02";
     transaction_time := SqlStr "08:30:00"; account_id := SqlStr "ACC-1";
     account_name := SqlStr "Checking"; account_type := SqlStr "checking";
     account_owner := SqlStr "Joint"; description := SqlStr "Groceries";
     category := SqlStr "Food"; subcategory := SqlStr "Market";
     amount := SqlFloat ((-1250)%Z, 2); transaction_type := SqlStr "Expense";
     balance_after := SqlNull; is_recurring := SqlInt 1;
     recurring_frequency := SqlNull; notes := SqlNull |}.

Definition salary_params : params (Z * nat) :=
  {| transaction_id := SqlStr "T2"; transaction_date := SqlStr "2024-01-01";
     transaction_time := SqlStr "08:30:00"; account_id := SqlStr "ACC-1";
     account_name := SqlStr "Checking"; account_type := SqlStr "checking";
     account_owner := SqlStr "Joint"; description := SqlStr "Groceries";
     category := SqlStr "Food"; subcategory := SqlStr "Market";
     amount := SqlFloat (2500%Z, 0); transaction_type := SqlStr "Expense";
     balance_after := SqlFloat (310075%Z, 2); is_recurring := SqlInt 0;
     recurring_frequency := SqlStr "Monthly"; notes := SqlStr "paid" |}.

(** A row that an earlier run left in the table. *)
Definition stored : params (Z * nat) :=
  {| transaction_id := SqlStr "T0"; transaction_date := SqlStr "2023-12-31";
     transaction_time := SqlStr "23:59:59"; account_id := SqlStr "ACC-1";
     account_name := SqlStr "Checking"; account_type := SqlStr "checking";
     account_owner := SqlStr "Joint"; description := SqlStr "Opening";
     category := SqlStr "Transfer"; subcategory := SqlStr "Internal";
     amount := SqlFloat (100000%Z, 2); transaction_type := SqlStr "Income";
     balance_after := SqlNull; is_recurring := SqlInt 0;
     recurring_frequency := SqlNull; notes := SqlNull |}.

(** Runs: on the two good records; with the garbled one between them; with
    the operator answering; with a file that cannot be opened. *)
Definition good_file : world :=
  {| connect_ok := true; response := "";
     csv := Readable [groceries; salary] true |}.

Definition garbled_file : world :=
  {| connect_ok := true; response := "";
     csv := Readable [groceries; garbled; salary] true |}.

Definition answering (answer : string) (f : csv_file) : world :=
  {| connect_ok := true; response := answer; csv := f |}.

Definition unopenable_file : world :=
  {| connect_ok := true; response := ""; csv := OpenError |}.

(** A record of a file whose header has no [notes] column, a record of a
    line that stops after [balance_after], and a run without database. *)
Definition no_notes_column : gmap string pyval := delete "notes" groceries.

Definition short_line : gmap string pyval :=
  <["is_recurring" := PyNone]>
    (<["recurring_frequency" := PyNone]> (<["notes" := PyNone]> groceries)).

Definition no_database : world :=
  {| connect_ok := false; response := ""; csv := Readable [groceries] true |}.

(** Sessions on which one commit fails: the final one, or the one after
    the first hundred rows. *)
Definition final_commit_fails : faults :=
  {| count_ok := true; stdin_open := true; truncate_ok := true;
     commit_ok := fun site => match site with Final => false | _ => true end;
     select_ok := true |}.

Definition batch_commit_fails : faults :=
  {| count_ok := true; stdin_open := true; truncate_ok := true;
     commit_ok := fun site => match site with
                              | AfterBatch 100 => false
                              | _ => true
                              end;
     select_ok := true |}.

(** * Properties *)

Section Properties.

Context {P : Platform}.

Local Arguments Nat.modulo : simpl never.
Local Arguments Nat.div : simpl never.
Local Arguments report_events : simpl never.

Implicit Types (row : gmap string pyval) (rows : list (gmap string pyval)).
Implicit Types (s : state) (p : params num) (w : world) (e : exn).

(** ** The conversion of one record *)

Lemma rbind_Ok {A B} (r : result A) (k : A -> result B) (b : B) :
  rbind r k = Ok b -> exists a, r = Ok a /\ k a = Ok b.
Proof. destruct r as [a|e]; simpl; [eauto | discriminate]. Qed.

Lemma rbind_Raise {A B} (r : result A) (k : A -> result B) e :
  rbind r k = Raise e -> r = Raise e \/ exists a, r = Ok a /\ k a = Raise e.
Proof. destruct r as [a|e']; simpl; [eauto | intros [= ->]; auto]. Qed.

Lemma getitem_Ok row k v : getitem row k = Ok v <-> row !! k = Some v.
Proof. unfold getitem. destruct (row !! k); split; congruence. Qed.

Lemma getitem_Raise row k e :
  getitem row k = Raise e <-> row !! k = None /\ e = KeyError k.
Proof.
  unfold getitem. destruct (row !! k); split; try congruence.
  - intros [? _]; congruence.
  - intros [= <-]; auto.
  - intros [_ ->]; reflexivity.
Qed.

Lemma py_float_Raise v e :
  py_float v = Raise e ->
  (v = PyNone /\ e = TypeError) \/
  (exists t, v = PyStr t /\ float t = None /\ e = ValueError).
Proof.
  destruct v as [|t]; simpl.
  - intros [= <-]; auto.
  - destruct (float t) eqn:E; [discriminate|]. intros [= <-]; eauto.
Qed.

Ltac invert_rbind H :=
  repeat (let a := fresh "v" in
          let E := fresh "E" in
          apply rbind_Ok in H as (a & E & H)).

(** The row-level reading of lines 76-98: what each converted parameter is,
    given the field of the record. *)
Lemma convert_row_Ok row p :
  convert_row row = Ok p ->
  exists v_rec v_freq v_notes v_bal v_amt x,
    row !! "is_recurring" = Some v_rec /\
    row !! "recurring_frequency" = Some v_freq /\
    row !! "notes" = Some v_notes /\
    row !! "balance_after" = Some v_bal /\
    row !! "amount" = Some v_amt /\
    is_recurring p = convert_is_recurring v_rec /\
    recurring_frequency p = convert_nullable v_freq /\
    notes p = convert_nullable v_notes /\
    convert_balance_after v_bal = Ok (balance_after p) /\
    py_float v_amt = Ok x /\ amount p = SqlFloat x.
Proof.
  unfold convert_row. intros H. invert_rbind H.
  injection H as <-. simpl.
  rewrite getitem_Ok in E, E0, E1, E2, E14.
  eauto 20.
Qed.

Lemma convert_row_Exception row e :
  convert_row row = Raise e -> is_Exception e = true.
Proof.
  unfold convert_row, convert_balance_after. intros H.
  repeat (apply rbind_Raise in H as [H | (? & _ & H)];
          [ first [ apply getitem_Raise in H as [_ ->]; reflexivity
                  | apply py_float_Raise in H as [[_ ->] | (? & _ & _ & ->)];
                    reflexivity
                  | idtac ] | ]);
    try discriminate.
  destruct (py_eq _ _); [discriminate|].
  apply rbind_Raise in H as [H | (? & _ & H)]; [|discriminate].
  apply py_float_Raise in H as [[_ ->] | (? & _ & _ & ->)]; reflexivity.
Qed.

Lemma py_eq_true v t : py_eq v t = true <-> v = PyStr t.
Proof.
  destruct v as [|u]; simpl; [split; discriminate|].
  rewrite String.eqb_eq. split; congruence.
Qed.

Lemma py_eq_false u t : u <> t -> py_eq (PyStr u) t = false.
Proof. intros H. simpl. apply String.eqb_neq, H. Qed.

(** The conversion succeeds exactly on the records that have every column
    and whose numbers parse. *)
Lemma convert_row_succeeds row :
  (exists p, convert_row row = Ok p) <->
  Forall (fun k => is_Some (row !! k)) columns /\
  (exists t x, row !! "amount" = Some (PyStr t) /\ float t = Some x) /\
  (row !! "balance_after" = Some (PyStr "") \/
   exists t x, row !! "balance_after" = Some (PyStr t) /\ float t = Some x).
Proof.
  split.
  - intros [p H]. unfold convert_row in H. invert_rbind H. clear H.
    rewrite getitem_Ok in *.
    split; [|split].
    + unfold columns. repeat (apply Forall_cons; split; [eauto|]). constructor.
    + destruct v14 as [|t]; [discriminate|]. simpl in E15.
      destruct (float t) eqn:F; [eauto|discriminate].
    + unfold convert_balance_after in E3.
      destruct (py_eq v2 "") eqn:Q.
      * apply py_eq_true in Q as ->. auto.
      * destruct v2 as [|t]; [discriminate|]. simpl in E3.
        destruct (float t) eqn:F; [eauto|discriminate].
  - intros (Hc & (t & x & Ha & Fa) & Hb). unfold columns in Hc.
    repeat (apply Forall_cons in Hc as [[? ?] Hc]).
    assert (exists b, convert_balance_after
                        (default PyNone (row !! "balance_after")) = Ok b) as [b Hb'].
    { destruct Hb as [-> | (u & y & -> & Fu)]; simpl; [eauto|].
      unfold convert_balance_after. destruct (py_eq (PyStr u) ""); [eauto|].
      simpl. rewrite Fu. simpl. eauto. }
    unfold convert_row, getitem.
    repeat match goal with H : row !! _ = Some _ |- _ => rewrite H in *; clear H end.
    simpl in *. rewrite Hb'. simplify_eq. simpl. rewrite Fa. simpl. eauto.
Qed.

(** C3.  For every record of the file that [convert_row] turns into INSERT
    parameters: an empty [is_recurring], [recurring_frequency], [notes] or
    [balance_after] becomes NULL; [is_recurring] becomes 1 for the string
    "True" and 0 for any other non-empty string; a non-empty
    [balance_after] and the [amount] become the numbers that [float] reads
    from them.  And the conversion does produce parameters for every record
    that has the sixteen columns, an [amount] that [float] reads and a
    [balance_after] that is empty or that [float] reads. *)
Theorem convert_row_fields row :
  (forall p, convert_row row = Ok p ->
     (row !! "is_recurring" = Some (PyStr "") -> is_recurring p = SqlNull) /\
     (row !! "recurring_frequency" = Some (PyStr "") ->
        recurring_frequency p = SqlNull) /\
     (row !! "notes" = Some (PyStr "") -> notes p = SqlNull) /\
     (row !! "balance_after" = Some (PyStr "") -> balance_after p = SqlNull) /\
     (row !! "is_recurring" = Some (PyStr "True") -> is_recurring p = SqlInt 1) /\
     (forall t, row !! "is_recurring" = Some (PyStr t) ->
        t <> "" -> t <> "True" -> is_recurring p = SqlInt 0) /\
     (forall t, row !! "balance_after" = Some (PyStr t) -> t <> "" ->
        exists x, float t = Some x /\ balance_after p = SqlFloat x) /\
     (forall t, row !! "amount" = Some (PyStr t) ->
        exists x, float t = Some x /\ amount p = SqlFloat x)) /\
  (Forall (fun k => exists t, row !! k = Some (PyStr t)) columns ->
   (exists t x, row !! "amount" = Some (PyStr t) /\ float t = Some x) ->
   (row !! "balance_after" = Some (PyStr "") \/
    exists t x, row !! "balance_after" = Some (PyStr t) /\ float t = Some x) ->
   exists p, convert_row row = Ok p).
Proof.
  split.
  - intros p H.
    apply convert_row_Ok in H
      as (v_rec & v_freq & v_notes & v_bal & v_amt & x &
          Hrec & Hfreq & Hnotes & Hbal & Hamt & -> & -> & -> & Cb & Ca & ->).
    rewrite Hrec, Hfreq, Hnotes, Hbal, Hamt.
    repeat split.
    + intros [= ->]. reflexivity.
    + intros [= ->]. reflexivity.
    + intros [= ->]. reflexivity.
    + intros [= ->]. unfold convert_balance_after in Cb. simpl in Cb. congruence.
    + intros [= ->]. reflexivity.
    + intros t [= ->] H1 H2. unfold convert_is_recurring.
      rewrite !py_eq_false by assumption. reflexivity.
    + intros t [= ->] H1. unfold convert_balance_after in Cb.
      rewrite py_eq_false in Cb by assumption. simpl in Cb.
      destruct (float t) as [y|]; [|discriminate]. simpl in Cb.
      exists y. split; [reflexivity|]. congruence.
    + intros t [= ->]. simpl in Ca.
      destruct (float t) as [y|]; [|discriminate].
      exists y. split; congruence.
  - intros Hc Ha Hb. apply convert_row_succeeds. repeat split; try assumption.
    eapply Forall_impl; [exact Hc|]. intros k [t ->]. eauto.
Qed.

(** ** One pass of the loop body *)

Lemma import_row_cases row s :
  (exists e, convert_row row = Raise e /\
             import_row row s = (Ok tt, after_error None e s)) \/
  (exists p, convert_row row = Ok p /\ db_accepts (table s) p = false /\
             import_row row s = (Ok tt, after_error (Some p) DbError s)) \/
  (exists p, convert_row row = Ok p /\ db_accepts (table s) p = true /\
             import_row row s = (Ok tt, after_insert p s)).
Proof.
  unfold import_row, try_except, bind, lift, execute_insert,
    assign_counts, read, commit, print, ret.
  destruct (convert_row row) as [p|e] eqn:C.
  - right. destruct (db_accepts (table s) p) eqn:D.
    + right. exists p. do 2 (split; [first [assumption | reflexivity]|]).
      unfold after_insert. simpl.
      destruct (Nat.eqb _ _); reflexivity.
    + left. exists p. do 2 (split; [first [assumption | reflexivity]|]). reflexivity.
  - left. exists e. split; [reflexivity|].
    rewrite (convert_row_Exception _ _ C). reflexivity.
Qed.

(** ** The loop *)

Lemma for_rows_Ok rows s : for_rows rows s = (Ok tt, exec (for_rows rows) s).
Proof.
  revert s. induction rows as [|row rest IH]; intros s; [reflexivity|].
  unfold exec. simpl. unfold bind.
  destruct (import_row_cases row s)
    as [(e & _ & ->) | [(p & _ & _ & ->) | (p & _ & _ & ->)]];
    rewrite IH; reflexivity.
Qed.

Lemma exec_for_rows_cons row rest s :
  exec (for_rows (row :: rest)) s = exec (for_rows rest) (exec (import_row row) s).
Proof.
  unfold exec. simpl. unfold bind.
  destruct (import_row_cases row s)
    as [(e & _ & ->) | [(p & _ & _ & ->) | (p & _ & _ & ->)]]; reflexivity.
Qed.

Lemma exec_for_rows_app rows1 rows2 s :
  exec (for_rows (rows1 ++ rows2)) s =
  exec (for_rows rows2) (exec (for_rows rows1) s).
Proof.
  revert s. induction rows1 as [|row rest IH]; intros s; [reflexivity|].
  rewrite <- app_comm_cons, !exec_for_rows_cons. apply IH.
Qed.

Lemma emitted_eq {A} (m : M A) s evs :
  trace (exec m s) = trace s ++ evs -> emitted m s = evs.
Proof. unfold emitted. intros ->. apply drop_app_length. Qed.

Lemma import_row_trace row s :
  trace (exec (import_row row) s) = trace s ++ emitted (import_row row) s /\
  row_events (imported_count s) (emitted (import_row row) s).
Proof.
  assert (exists evs, trace (exec (import_row row) s) = trace s ++ evs /\
                      row_events (imported_count s) evs) as (evs & Ht & Hr).
  { unfold exec.
    destruct (import_row_cases row s)
      as [(e & _ & ->) | [(p & _ & _ & ->) | (p & _ & _ & ->)]]; simpl.
    - eexists. split; [reflexivity|]. constructor.
    - rewrite <- app_assoc. eexists. split; [reflexivity|]. constructor.
    - unfold after_insert. simpl.
      destruct (Nat.eqb_spec ((imported_count s + 1) mod 100) 0) as [E|E]; simpl.
      + rewrite <- !app_assoc. eexists. split; [reflexivity|].
        apply row_inserted_commit, E.
      + eexists. split; [reflexivity|]. apply row_inserted, E. }
  rewrite (emitted_eq _ _ _ Ht). auto.
Qed.

Lemma for_rows_trace rows s :
  trace (exec (for_rows rows) s) = trace s ++ emitted (for_rows rows) s.
Proof.
  assert (exists evs, trace (exec (for_rows rows) s) = trace s ++ evs) as [evs Ht].
  { revert s. induction rows as [|row rest IH]; intros s.
    - exists []. unfold exec. simpl. symmetry. apply app_nil_r.
    - rewrite exec_for_rows_cons.
      destruct (IH (exec (import_row row) s)) as [evs ->].
      destruct (import_row_trace row s) as [-> _].
      rewrite <- app_assoc. eauto. }
  rewrite (emitted_eq _ _ _ Ht). exact Ht.
Qed.

Lemma emitted_for_rows_nil s : emitted (for_rows []) s = [].
Proof. apply emitted_eq. unfold exec. simpl. symmetry. apply app_nil_r. Qed.

Lemma emitted_for_rows_cons row rest s :
  emitted (for_rows (row :: rest)) s =
  emitted (import_row row) s ++ emitted (for_rows rest) (exec (import_row row) s).
Proof.
  apply emitted_eq. rewrite exec_for_rows_cons, for_rows_trace.
  destruct (import_row_trace row s) as [-> _]. symmetry. apply app_assoc.
Qed.

Lemma inserted_app (tr1 tr2 : list event) :
  inserted (tr1 ++ tr2) = inserted tr1 ++ inserted tr2.
Proof.
  induction tr1 as [|e tr1 IH]; [reflexivity|].
  destruct e as [| | | | | |p [|]| |]; simpl; rewrite IH; reflexivity.
Qed.

(** The three ways a pass ends, with the final state and the events. *)
Lemma import_row_step row s :
  (exists e n,
      (convert_row row = Raise e /\ n = None \/
       e = DbError /\ exists p, n = Some p /\ convert_row row = Ok p /\
                               db_accepts (table s) p = false) /\
      exec (import_row row) s = after_error n e s /\
      inserted (emitted (import_row row) s) = []) \/
  (exists p,
      convert_row row = Ok p /\ db_accepts (table s) p = true /\
      exec (import_row row) s = after_insert p s /\
      inserted (emitted (import_row row) s) = [p]).
Proof.
  destruct (import_row_cases row s)
    as [(e & C & H) | [(p & C & D & H) | (p & C & D & H)]].
  - left. exists e, None. unfold exec. rewrite H. simpl.
    split; [auto|]. split; [reflexivity|].
    erewrite emitted_eq; [|unfold exec; rewrite H; reflexivity]. reflexivity.
  - left. exists DbError, (Some p). unfold exec. rewrite H. simpl.
    split; [eauto 10|]. split; [reflexivity|].
    erewrite emitted_eq;
      [|unfold exec; rewrite H; simpl; rewrite <- app_assoc; reflexivity].
    reflexivity.
  - right. exists p. unfold exec. rewrite H. simpl.
    do 3 (split; [first [assumption|reflexivity]|]).
    assert (exists evs, trace (after_insert p s) = trace s ++ evs /\
                        inserted evs = [p]) as (evs & Ht & Hi).
    { unfold after_insert. simpl.
      destruct (Nat.eqb _ _); simpl; [rewrite <- !app_assoc|];
        eexists; split; reflexivity. }
    rewrite (emitted_eq _ _ evs); [exact Hi|].
    unfold exec. rewrite H. exact Ht.
Qed.

Lemma table_after_insert p s : table (after_insert p s) = table s ++ [p].
Proof. unfold after_insert. simpl. destruct (Nat.eqb _ _); reflexivity. Qed.

Lemma counts_after_insert p s :
  imported_count (after_insert p s) = imported_count s + 1 /\
  error_count (after_insert p s) = error_count s /\
  conn_open (after_insert p s) = conn_open s.
Proof. unfold after_insert. simpl. destruct (Nat.eqb _ _); auto. Qed.

Lemma fields_after_error n e s :
  table (after_error n e s) = table s /\
  committed (after_error n e s) = committed s /\
  imported_count (after_error n e s) = imported_count s /\
  error_count (after_error n e s) = error_count s + 1 /\
  conn_open (after_error n e s) = conn_open s.
Proof. destruct n; simpl; auto. Qed.

(** What the loop leaves behind, read off the events it emitted. *)
Lemma for_rows_effects rows s :
  let s' := exec (for_rows rows) s in
  let evs := emitted (for_rows rows) s in
  table s' = table s ++ inserted evs /\
  imported_count s' = imported_count s + length (inserted evs) /\
  imported_count s' + error_count s' =
    imported_count s + error_count s + length rows /\
  conn_open s' = conn_open s.
Proof.
  revert s. induction rows as [|row rest IH]; intros s; cbv zeta.
  - rewrite emitted_for_rows_nil. unfold exec. simpl.
    rewrite app_nil_r. repeat split; lia.
  - rewrite exec_for_rows_cons, emitted_for_rows_cons, inserted_app.
    destruct (IH (exec (import_row row) s)) as (-> & -> & Hc & ->).
    rewrite length_app, app_assoc.
    destruct (import_row_step row s)
      as [(e & n & _ & E & I) | (p & _ & _ & E & I)]; rewrite E in *; rewrite I.
    + destruct (fields_after_error n e s) as (Ht & _ & Hi & He & Ho).
      rewrite Ht, Hi, Ho, app_nil_r. rewrite Hi, He in Hc. simpl.
      repeat split; lia.
    + destruct (counts_after_insert p s) as (Hi & He & Ho).
      rewrite table_after_insert, Hi, Ho. rewrite Hi, He in Hc. simpl.
      repeat split; lia.
Qed.

(** ** Straight-line parts *)

(** Two descriptions of one state: compare field by field, and the traces
    up to the bracketing of [++]. *)
Ltac state_eq :=
  cbv beta iota delta
    [closed connected initial logs log
     set_table set_committed set_conn_open set_counts
     table committed conn_open imported_count error_count trace];
  f_equal; rewrite <- ?app_assoc; reflexivity.

Lemma logs_log evs ev s : logs evs (log ev s) = logs (ev :: evs) s.
Proof. unfold logs, log. simpl. rewrite <- app_assoc. reflexivity. Qed.

Lemma log_logs evs ev s : log ev (logs evs s) = logs (evs ++ [ev]) s.
Proof. unfold logs, log. simpl. rewrite <- app_assoc. reflexivity. Qed.

Lemma logs_logs evs1 evs2 s : logs evs2 (logs evs1 s) = logs (evs1 ++ evs2) s.
Proof. unfold logs. simpl. rewrite <- app_assoc. reflexivity. Qed.

Lemma log_as_logs ev s : log ev s = logs [ev] s.
Proof. reflexivity. Qed.

Lemma print_samples_run (rows : list (params num)) s :
  print_samples rows s = (Ok tt, logs (map sample_line rows) s).
Proof.
  revert s. induction rows as [|r rest IH]; intros s; simpl.
  - unfold ret, logs. rewrite app_nil_r. destruct s; reflexivity.
  - unfold bind, print. rewrite IH, logs_log. reflexivity.
Qed.

Lemma report_run s : report s = (Ok tt, logs (report_events s) s).
Proof.
  unfold report, report_events, bind, print, read, select_top5, ret. simpl.
  destruct (0 <? error_count s)%nat; simpl;
    rewrite print_samples_run, !log_as_logs, !logs_logs; reflexivity.
Qed.

(** [import_and_report] in closed form, by what the file is. *)
Lemma import_and_report_run w s :
  import_and_report w s =
  match csv w with
  | Missing =>
      (Raise (SystemExit 1), log (EvPrint MsgCsvNotFound) (set_counts 0 0 s))
  | OpenError =>
      (Raise (SystemExit 1),
       log (EvPrint (MsgCsvReadError ReadError)) (set_counts 0 0 s))
  | Readable rows eof =>
      let s2 := exec (for_rows rows)
                     (logs [EvPrint MsgReadingFrom; EvPrint MsgImporting]
                           (set_counts 0 0 s)) in
      if eof
      then let s3 := log EvCommit (set_committed (table s2) s2) in
           (Ok tt, logs (report_events s3) s3)
      else (Raise (SystemExit 1), log (EvPrint (MsgCsvReadError ReadError)) s2)
  end.
Proof.
  unfold import_and_report, bind, assign_counts, try_except, read_and_insert.
  destruct (csv w) as [| |rows eof]; try reflexivity.
  unfold bind, print. rewrite log_as_logs, logs_log, for_rows_Ok.
  destruct eof; simpl.
  - rewrite report_run. reflexivity.
  - reflexivity.
Qed.

(** [import_csv_data] in closed form: a declined prompt, or
    [import_and_report] on the empty or cleared table. *)
Lemma import_csv_data_run w s :
  import_csv_data w s =
  let n := length (table s) in
  let s0 := log (EvSelectCount n) s in
  if (0 <? n)%nat then
    let s1 := logs [EvPrint (MsgTableContains n); EvInput (response w)] s0 in
    if String.eqb (lower (response w)) "yes"
    then import_and_report w
           (logs [EvTruncate; EvCommit; EvPrint MsgTableCleared]
                 (set_committed [] (set_table [] s1)))
    else (Ok tt, log (EvPrint MsgImportCancelled) s1)
  else import_and_report w s0.
Proof.
  unfold import_csv_data, bind, select_count, input, print. cbv zeta.
  destruct (0 <? length (table s))%nat; [|reflexivity].
  destruct (String.eqb (lower (response w)) "yes").
  - unfold truncate_table, commit. f_equal. state_eq.
  - f_equal. state_eq.
Qed.

(** [main] in closed form: a failed connection, or [import_csv_data] on the
    open connection and then the [finally] clause. *)
Lemma main_run w tbl :
  main w (initial tbl) =
  if connect_ok w then
    let (r, s') := import_csv_data w (connected tbl) in (r, closed s')
  else
    (Raise (SystemExit 1),
     logs [EvPrint MsgRule; EvPrint MsgTitle; EvPrint MsgRule;
           EvConnect false; EvPrint MsgConnectError] (initial tbl)).
Proof.
  unfold main, get_connection, try_except, try_finally, connect, bind, print,
    sys_exit, raise, ret, close.
  destruct (connect_ok w); [|reflexivity].
  match goal with
  | |- context [import_csv_data w ?a] =>
      replace a with (connected tbl) by reflexivity
  end.
  destruct (import_csv_data w (connected tbl)) as [r s'].
  f_equal. unfold closed, logs, log, set_conn_open, set_table. simpl.
  rewrite <- app_assoc. reflexivity.
Qed.

(** ** Records that all convert and are all accepted *)

Lemma for_rows_accepted rows s :
  rows_accepted (table s) rows ->
  let evs := emitted (for_rows rows) s in
  Forall2 (fun row p => convert_row row = Ok p) rows (inserted evs) /\
  List.filter is_insert evs = map (fun p => EvInsert p true) (inserted evs) /\
  error_count (exec (for_rows rows) s) = error_count s.
Proof.
  revert s. induction rows as [|row rest IH]; intros s Hacc; cbv zeta.
  - rewrite emitted_for_rows_nil. unfold exec. simpl. auto.
  - destruct Hacc as (p & C & D & Hacc).
    rewrite exec_for_rows_cons, emitted_for_rows_cons, inserted_app,
      List.filter_app, map_app.
    destruct (import_row_step row s)
      as [(e & n & [[C' _] | (_ & p' & _ & C' & D')] & _) | (p' & C' & _ & E & I)];
      [congruence | congruence |].
    assert (p' = p) as -> by congruence.
    destruct (import_row_trace row s) as [_ Hshape].
    rewrite E in *. specialize (IH (after_insert p s)).
    rewrite table_after_insert in IH.
    destruct (IH Hacc) as (IH1 & IH2 & IH3).
    rewrite I, IH2, IH3.
    destruct (counts_after_insert p s) as (_ & -> & _).
    split; [constructor; assumption|]. split; [|reflexivity].
    f_equal.
    destruct Hshape; simpl in I; try discriminate; injection I as ->; reflexivity.
Qed.

(** ** A run that reads the file to its end *)

Lemma report_events_prints s :
  inserted (report_events s) = [] /\
  Forall (fun ev => is_insert ev = false /\ is_commit ev = false /\
                    is_truncate ev = false) (report_events s).
Proof.
  assert (forall l : list (params num),
             inserted (map sample_line l) = [] /\
             Forall (fun ev => is_insert ev = false /\ is_commit ev = false /\
                               is_truncate ev = false) (map sample_line l))
    as Hs.
  { induction l as [|r l [IH1 IH2]]; simpl; split; auto. }
  unfold report_events.
  destruct (Hs (firstn 5 (order_by_date (table s)))) as [H1 H2].
  destruct (0 <? error_count s)%nat; simpl; (split; [exact H1|]);
    repeat (apply List.Forall_cons; [auto|]); exact H2.
Qed.

Lemma import_and_report_complete w rows s :
  csv w = Readable rows true ->
  let evs := emitted (for_rows rows)
               (logs [EvPrint MsgReadingFrom; EvPrint MsgImporting]
                     (set_counts 0 0 s)) in
  exists s',
    import_and_report w s = (Ok tt, s') /\
    table s' = table s ++ inserted evs /\
    committed s' = table s' /\
    imported_count s' = length (inserted evs) /\
    imported_count s' + error_count s' = length rows /\
    conn_open s' = conn_open s /\
    trace s' = trace s ++ [EvPrint MsgReadingFrom; EvPrint MsgImporting] ++ evs
                       ++ [EvCommit] ++ report_events s'.
Proof.
  intros Hcsv evs. rewrite import_and_report_run, Hcsv. cbv zeta.
  eexists. split; [reflexivity|].
  pose proof (for_rows_effects rows
                (logs [EvPrint MsgReadingFrom; EvPrint MsgImporting]
                      (set_counts 0 0 s))) as (Ht & Hi & Hc & Ho).
  pose proof (for_rows_trace rows
                (logs [EvPrint MsgReadingFrom; EvPrint MsgImporting]
                      (set_counts 0 0 s))) as Htr.
  simpl in Ht, Hi, Hc, Ho, Htr. fold evs in Ht, Hi, Hc, Htr.
  simpl. rewrite Htr, <- !app_assoc. simpl.
  repeat split; assumption || reflexivity.
Qed.

Lemma filter_none {A} (f : A -> bool) (l : list A) :
  Forall (fun a => f a = false) l -> List.filter f l = [].
Proof.
  induction 1 as [|a l Ha _ IH]; [reflexivity|]. simpl. rewrite Ha. exact IH.
Qed.

Lemma report_events_no_insert s : List.filter is_insert (report_events s) = [].
Proof.
  apply filter_none. destruct (report_events_prints s) as [_ H].
  eapply Forall_impl; [exact H|]. simpl. tauto.
Qed.

Lemma import_and_report_extends w s :
  exists evs, trace (snd (import_and_report w s)) = trace s ++ evs.
Proof.
  rewrite import_and_report_run.
  destruct (csv w) as [| |rows [|]]; simpl; eauto.
  - fold (exec (for_rows rows)
               (logs [EvPrint MsgReadingFrom; EvPrint MsgImporting]
                     (set_counts 0 0 s))).
    rewrite for_rows_trace. simpl. rewrite <- !app_assoc. eauto.
  - fold (exec (for_rows rows)
               (logs [EvPrint MsgReadingFrom; EvPrint MsgImporting]
                     (set_counts 0 0 s))).
    rewrite for_rows_trace. simpl. rewrite <- !app_assoc. eauto.
Qed.

Lemma for_rows_events rows s :
  Forall import_event (emitted (for_rows rows) s).
Proof.
  revert s. induction rows as [|row rest IH]; intros s.
  - rewrite emitted_for_rows_nil. constructor.
  - rewrite emitted_for_rows_cons. apply Forall_app. split; [|apply IH].
    destruct (import_row_trace row s) as [_ H].
    destruct H; repeat constructor.
Qed.

Lemma report_events_import s : Forall import_event (report_events s).
Proof.
  unfold report_events. rewrite !Forall_app. repeat split.
  - repeat constructor.
  - destruct (0 <? error_count s)%nat; repeat constructor.
  - repeat constructor.
  - apply List.Forall_forall. intros ev Hin.
    apply in_map_iff in Hin as (r & <- & _). exact I.
Qed.

(** The outcome of [import_and_report], and that it adds import events
    only. *)
Lemma import_and_report_outcome w s :
  exists evs,
    trace (snd (import_and_report w s)) = trace s ++ evs /\
    Forall import_event evs /\
    conn_open (snd (import_and_report w s)) = conn_open s /\
    ((exists rows, csv w = Readable rows true) /\
       fst (import_and_report w s) = Ok tt \/
     ~ (exists rows, csv w = Readable rows true) /\
       fst (import_and_report w s) = Raise (SystemExit 1)).
Proof.
  rewrite import_and_report_run.
  destruct (csv w) as [| |rows eof]; cbv zeta.
  - eexists. split; [reflexivity|]. split; [repeat constructor|].
    split; [reflexivity|]. right. split; [|reflexivity].
    intros [? ?]; discriminate.
  - eexists. split; [reflexivity|]. split; [repeat constructor|].
    split; [reflexivity|]. right. split; [|reflexivity].
    intros [? ?]; discriminate.
  - set (s1 := logs [EvPrint MsgReadingFrom; EvPrint MsgImporting]
                    (set_counts 0 0 s)).
    pose proof (for_rows_trace rows s1) as Htr.
    pose proof (for_rows_events rows s1) as Hev.
    pose proof (for_rows_effects rows s1) as (_ & _ & _ & Ho).
    destruct eof.
    + exists ([EvPrint MsgReadingFrom; EvPrint MsgImporting]
              ++ emitted (for_rows rows) s1 ++ [EvCommit]
              ++ report_events
                   (log EvCommit
                        (set_committed (table (exec (for_rows rows) s1))
                                       (exec (for_rows rows) s1)))).
      cbn [snd fst trace conn_open logs log set_committed].
      rewrite Htr, Ho. subst s1.
      cbn [trace conn_open logs set_counts].
      rewrite <- !app_assoc. split; [reflexivity|].
      split; [|split; [reflexivity|left; split; [eauto|reflexivity]]].
      rewrite !Forall_app. repeat split; try assumption.
      * repeat constructor.
      * repeat constructor.
      * apply report_events_import.
    + exists ([EvPrint MsgReadingFrom; EvPrint MsgImporting]
              ++ emitted (for_rows rows) s1
              ++ [EvPrint (MsgCsvReadError ReadError)]).
      cbn [snd fst trace conn_open logs log set_committed].
      rewrite Htr, Ho. subst s1.
      cbn [trace conn_open logs set_counts].
      rewrite <- !app_assoc. split; [reflexivity|].
      split; [|split; [reflexivity|right; split; [|reflexivity]]].
      * rewrite !Forall_app. repeat split; try assumption; repeat constructor.
      * intros [? ?]; discriminate.
Qed.

(** ** The prompt *)

Lemma main_declined w tbl :
  connect_ok w = true ->
  tbl <> [] ->
  lower (response w) <> "yes" ->
  main w (initial tbl) =
  (Ok tt,
   closed (logs [EvSelectCount (length tbl);
                 EvPrint (MsgTableContains (length tbl));
                 EvInput (response w);
                 EvPrint MsgImportCancelled] (connected tbl))).
Proof.
  intros Hconn Hne Hno.
  rewrite main_run, Hconn, import_csv_data_run. simpl.
  destruct tbl as [|p tbl]; [congruence|]. simpl.
  apply String.eqb_neq in Hno. rewrite Hno. reflexivity.
Qed.

Lemma main_confirmed w tbl :
  connect_ok w = true ->
  tbl <> [] ->
  lower (response w) = "yes" ->
  main w (initial tbl) =
  let (r, s') :=
    import_and_report w
      (logs [EvSelectCount (length tbl);
             EvPrint (MsgTableContains (length tbl));
             EvInput (response w);
             EvTruncate; EvCommit; EvPrint MsgTableCleared]
            (set_committed [] (set_table [] (connected tbl)))) in
  (r, closed s').
Proof.
  intros Hconn Hne Hyes.
  rewrite main_run, Hconn, import_csv_data_run. simpl.
  destruct tbl as [|p tbl]; [congruence|]. simpl.
  apply String.eqb_eq in Hyes. rewrite Hyes. reflexivity.
Qed.

(** [import_csv_data] never closes the connection itself. *)
Lemma import_csv_data_no_close w s :
  exists evs,
    trace (snd (import_csv_data w s)) = trace s ++ evs /\
    Forall (fun ev => ev <> EvClose) evs.
Proof.
  assert (forall evs, Forall import_event evs ->
                      Forall (fun ev => ev <> EvClose) evs) as Himp.
  { intros evs H. eapply Forall_impl; [exact H|].
    intros ev Hev ->. exact Hev. }
  rewrite import_csv_data_run. cbv zeta.
  destruct (0 <? length (table s))%nat.
  - destruct (String.eqb (lower (response w)) "yes").
    + match goal with
      | |- context [import_and_report w ?a] =>
          destruct (import_and_report_outcome w a) as (evs & -> & Hev & _)
      end.
      cbn [trace logs log set_committed set_table].
      rewrite <- !app_assoc. eexists. split; [reflexivity|].
      rewrite !Forall_app. split; [|split; [|auto]];
        repeat (apply List.Forall_cons; [discriminate|]); constructor.
    + cbn [snd trace logs log]. rewrite <- !app_assoc.
      eexists. split; [reflexivity|].
      repeat (apply List.Forall_cons; [discriminate|]). constructor.
  - destruct (import_and_report_outcome w (log (EvSelectCount (length (table s))) s))
      as (evs & -> & Hev & _).
    cbn [trace log]. rewrite <- !app_assoc.
    eexists. split; [reflexivity|].
    rewrite !Forall_app. split; [|auto].
    repeat (apply List.Forall_cons; [discriminate|]). constructor.
Qed.

(** ** The cadence of commits *)

Lemma import_row_count row s :
  imported_count (exec (import_row row) s) =
  imported_count s + length (inserted (emitted (import_row row) s)).
Proof.
  destruct (import_row_step row s)
    as [(e & n & _ & -> & ->) | (p & _ & _ & -> & ->)]; cbn [length].
  - destruct (fields_after_error n e s) as (_ & _ & -> & _). lia.
  - destruct (counts_after_insert p s) as (-> & _). reflexivity.
Qed.

(** After a whole pass no commit is due. *)
Lemma row_events_settled c evs : row_events c evs -> commit_due c evs = false.
Proof.
  intros [e n | p n | p H | p H]; unfold commit_due; simpl; try reflexivity.
  apply Nat.eqb_neq. exact H.
Qed.

(** Inside a pass the commit comes when it is due. *)
Lemma row_events_cadence c evs pre ev post :
  row_events c evs -> evs = pre ++ ev :: post ->
  is_commit ev = commit_due c pre.
Proof.
  intros [e n | p n | p H | p H] Heq;
    repeat (destruct pre as [|? pre]; simpl in Heq;
            [injection Heq as <-; intros; subst; try reflexivity|
             injection Heq as <- Heq]);
    try (destruct pre; discriminate).
  unfold commit_due. simpl. symmetry. apply Nat.eqb_eq. exact H.
Qed.

Lemma commit_due_app c evs l :
  l <> [] ->
  commit_due c (evs ++ l) = commit_due (c + length (inserted evs)) l.
Proof.
  intros Hl. unfold commit_due.
  rewrite last_app, inserted_app, length_app, Nat.add_assoc.
  destruct (last l) eqn:E; [reflexivity|].
  apply last_None in E. contradiction.
Qed.

Lemma for_rows_cadence rows s pre ev post :
  emitted (for_rows rows) s = pre ++ ev :: post ->
  is_commit ev = commit_due (imported_count s) pre.
Proof.
  revert s pre. induction rows as [|row rest IH]; intros s pre Heq.
  - rewrite emitted_for_rows_nil in Heq. destruct pre; discriminate.
  - rewrite emitted_for_rows_cons in Heq.
    destruct (import_row_trace row s) as [_ Hshape].
    apply app_eq_inv in Heq as [(k & H1 & H2) | (k & H1 & H2)].
    + destruct k as [|ev' k].
      * rewrite app_nil_r in H1. simpl in H2. subst pre.
        rewrite (row_events_settled _ _ Hshape).
        rewrite (IH _ [] (eq_sym H2)). reflexivity.
      * simpl in H2. injection H2 as -> H2.
        eapply row_events_cadence; [exact Hshape|exact H1].
    + subst pre. rewrite (IH _ _ H2), import_row_count.
      destruct k as [|ev' k].
      * rewrite app_nil_r. unfold commit_due at 1. simpl.
        symmetry. apply row_events_settled, Hshape.
      * symmetry. apply commit_due_app. discriminate.
Qed.

Lemma for_rows_commits rows s :
  imported_count s / 100
    + length (List.filter is_commit (emitted (for_rows rows) s)) =
  (imported_count s + length (inserted (emitted (for_rows rows) s))) / 100.
Proof.
  revert s. induction rows as [|row rest IH]; intros s.
  - rewrite emitted_for_rows_nil. simpl. rewrite !Nat.add_0_r. reflexivity.
  - rewrite emitted_for_rows_cons, List.filter_app, inserted_app, !length_app.
    specialize (IH (exec (import_row row) s)).
    rewrite import_row_count in IH.
    destruct (import_row_trace row s) as [_ Hshape].
    destruct Hshape as [e n | p n | p H | p H]; simpl in *.
    + rewrite Nat.add_0_r in IH. lia.
    + rewrite Nat.add_0_r in IH. lia.
    + assert ((imported_count s + 1) / 100 = imported_count s / 100) as E.
      { pose proof (Nat.div_mod_eq (imported_count s + 1) 100).
        pose proof (Nat.div_mod_eq (imported_count s) 100).
        pose proof (Nat.mod_upper_bound (imported_count s + 1) 100).
        pose proof (Nat.mod_upper_bound (imported_count s) 100).
        nia. }
      rewrite <- E, IH. f_equal. lia.
    + assert ((imported_count s + 1) / 100 = S (imported_count s / 100)) as E.
      { pose proof (Nat.div_mod_eq (imported_count s + 1) 100).
        pose proof (Nat.div_mod_eq (imported_count s) 100).
        pose proof (Nat.mod_upper_bound (imported_count s) 100).
        nia. }
      etransitivity; [|etransitivity; [exact IH|f_equal; lia]].
      rewrite E. lia.
Qed.

Lemma is_commit_true (ev : event) : is_commit ev = true <-> ev = EvCommit.
Proof. destruct ev; simpl; split; congruence. Qed.

Lemma commit_due_true c pre :
  commit_due c pre = true <->
  (exists p, last pre = Some (EvInsert p true)) /\
  (c + length (inserted pre)) mod 100 = 0.
Proof.
  unfold commit_due. destruct (last pre) as [[| | | | | |p [|]| |]|];
    try (split; [discriminate | intros [[? [=]] _]]).
  rewrite Nat.eqb_eq. split; [eauto|tauto].
Qed.

(** ** A record that is skipped *)

Lemma unparseable_amount_raises row t :
  row !! "amount" = Some (PyStr t) -> float t = None ->
  exists e, convert_row row = Raise e.
Proof.
  intros Hrow Hf. destruct (convert_row row) as [p|e] eqn:C; [|eauto].
  apply convert_row_Ok in C
    as (? & ? & ? & ? & v_amt & x & _ & _ & _ & _ & Ha & _ & _ & _ & _ & Hx & _).
  rewrite Hrow in Ha. injection Ha as <-. simpl in Hx.
  rewrite Hf in Hx. discriminate.
Qed.

Lemma import_row_sim row s s' :
  same_effects s s' ->
  same_effects (exec (import_row row) s) (exec (import_row row) s') /\
  error_count (exec (import_row row) s) + error_count s' =
  error_count (exec (import_row row) s') + error_count s.
Proof.
  intros (Ht & Hc & Hi & Hs). unfold exec, same_effects.
  destruct (import_row_cases row s)
    as [(e & C & ->) | [(p & C & D & ->) | (p & C & D & ->)]];
  destruct (import_row_cases row s')
    as [(e' & C' & ->) | [(p' & C' & D' & ->) | (p' & C' & D' & ->)]];
    try congruence;
    try (assert (p' = p) as -> by congruence; rewrite Ht in D; congruence).
  - simpl. rewrite !List.filter_app, Hs. repeat split; (assumption || lia).
  - assert (p' = p) as -> by congruence.
    simpl. rewrite !List.filter_app, Hs. simpl.
    repeat split; (assumption || lia).
  - assert (p' = p) as -> by congruence.
    unfold after_insert. simpl. rewrite Hi, Ht.
    destruct (Nat.eqb _ _); simpl; rewrite !List.filter_app, Hs; simpl;
      repeat split; (congruence || lia).
Qed.

Lemma for_rows_sim rows s s' :
  same_effects s s' ->
  same_effects (exec (for_rows rows) s) (exec (for_rows rows) s') /\
  error_count (exec (for_rows rows) s) + error_count s' =
  error_count (exec (for_rows rows) s') + error_count s.
Proof.
  revert s s'. induction rows as [|row rest IH]; intros s s' H.
  - unfold exec. simpl. split; [exact H|lia].
  - rewrite !exec_for_rows_cons.
    destruct (import_row_sim row s s' H) as [H1 H2].
    destruct (IH _ _ H1) as [H3 H4]. split; [exact H3|lia].
Qed.

(** ** The sample query *)

Lemma insert_by_date_perm p (l : list (params num)) :
  Permutation (insert_by_date p l) (p :: l).
Proof.
  induction l as [|q l IH]; simpl; [reflexivity|].
  destruct (date_le _ _); [reflexivity|].
  rewrite IH. apply perm_swap.
Qed.

Lemma order_by_date_perm (l : list (params num)) :
  Permutation (order_by_date l) l.
Proof.
  induction l as [|p l IH]; simpl; [reflexivity|].
  rewrite insert_by_date_perm, IH. reflexivity.
Qed.

Section DateOrder.

Hypothesis date_le_total : forall a b, date_le a b = true \/ date_le b a = true.

Lemma insert_by_date_sorted p (l : list (params num)) :
  Sorted date_order l -> Sorted date_order (insert_by_date p l).
Proof.
  induction l as [|q l IH]; intros Hs; simpl.
  - repeat constructor.
  - destruct (date_le (transaction_date p) (transaction_date q)) eqn:E.
    + constructor; [assumption|]. constructor. exact E.
    + apply Sorted_inv in Hs as [Hs Hhd].
      constructor; [apply IH, Hs|].
      assert (date_order q p) as Hqp.
      { destruct (date_le_total (transaction_date p) (transaction_date q));
          [congruence|assumption]. }
      destruct l as [|r l]; simpl.
      * constructor. exact Hqp.
      * destruct (date_le (transaction_date p) (transaction_date r));
          constructor; [exact Hqp|]. apply HdRel_inv in Hhd. exact Hhd.
Qed.

Lemma order_by_date_sorted (l : list (params num)) :
  Sorted date_order (order_by_date l).
Proof.
  induction l as [|p l IH]; simpl; [constructor|].
  apply insert_by_date_sorted, IH.
Qed.

End DateOrder.

Lemma Sorted_firstn {A} (R : A -> A -> Prop) n (l : list A) :
  Sorted R l -> Sorted R (firstn n l).
Proof.
  revert l. induction n as [|n IH]; intros l Hs; [constructor|].
  destruct l as [|a l]; [constructor|]. simpl.
  apply Sorted_inv in Hs as [Hs Hhd].
  constructor; [apply IH, Hs|].
  destruct n; [constructor|].
  destruct l as [|b l]; simpl; constructor.
  apply HdRel_inv in Hhd. exact Hhd.
Qed.

Lemma Sorted_app_before {A} (R : A -> A -> Prop) (l1 l2 : list A) :
  (forall x y z, R x y -> R y z -> R x z) ->
  Sorted R (l1 ++ l2) ->
  forall a b, In a l1 -> In b l2 -> R a b.
Proof.
  intros Htrans Hs. apply Sorted_StronglySorted in Hs; [|exact Htrans].
  induction l1 as [|x l1 IH]; intros a b Ha Hb; [contradiction|].
  simpl in Hs. apply StronglySorted_inv in Hs as [Hs Hx].
  destruct Ha as [<- | Ha].
  - rewrite List.Forall_forall in Hx. apply Hx, in_app_iff. auto.
  - exact (IH Hs a b Ha Hb).
Qed.

(** ** The claims about whole runs *)

(** C1.  For a file of N records that all convert and that the database
    all accepts, an empty table and a connection that is established, the
    run returns normally, has executed exactly N INSERT statements, all
    successful, leaves the N converted rows in the table, committed, and
    ends with [imported_count = N] (which it prints) and
    [error_count = 0]. *)
Theorem import_clean_table w rows :
  connect_ok w = true ->
  csv w = Readable rows true ->
  rows_accepted [] rows ->
  exists s,
    main w (initial []) = (Ok tt, s) /\
    Forall2 (fun row p => convert_row row = Ok p) rows (table s) /\
    length (table s) = length rows /\
    committed s = table s /\
    List.filter is_insert (trace s) = map (fun p => EvInsert p true) (table s) /\
    imported_count s = length rows /\
    error_count s = 0 /\
    In (EvPrint (MsgImported (length rows))) (trace s).
Proof.
  intros Hconn Hcsv Hacc.
  rewrite main_run, Hconn, import_csv_data_run. simpl.
  set (s0 := log (EvSelectCount 0) (connected [])).
  destruct (import_and_report_complete w rows s0 Hcsv)
    as (s' & -> & Ht & Hcm & Hi & Hc & _ & Htr).
  set (s1 := logs [EvPrint MsgReadingFrom; EvPrint MsgImporting]
                  (set_counts 0 0 s0)) in *.
  destruct (for_rows_accepted rows s1 Hacc) as (F2 & Hf & He).
  pose proof (for_rows_effects rows s1) as (_ & Hi' & Hc' & _).
  simpl in Ht, Hi', Hc'.
  assert (length (inserted (emitted (for_rows rows) s1)) = length rows) as Hlen.
  { rewrite He in Hc'. simpl in Hc'. lia. }
  exists (closed s'). split; [reflexivity|]. simpl.
  rewrite Hcm, Ht, Hi, Htr.
  repeat split; try assumption; try lia.
  - rewrite !List.filter_app, Hf, report_events_no_insert. simpl.
    rewrite !app_nil_r. reflexivity.
  - unfold report_events.
    rewrite Hi, Hlen. rewrite !in_app_iff. simpl. tauto.
Qed.

(** C5.  When the table holds rows and the operator answers "no", the run
    returns normally having sent the database nothing but the count and the
    close: no INSERT, no TRUNCATE, no commit; the table and its committed
    contents are what they were. *)
Theorem declined_leaves_table w tbl :
  connect_ok w = true ->
  tbl <> [] ->
  response w = "no" ->
  exists s,
    main w (initial tbl) = (Ok tt, s) /\
    table s = tbl /\
    committed s = tbl /\
    trace s = [EvPrint MsgRule; EvPrint MsgTitle; EvPrint MsgRule;
               EvConnect true; EvPrint MsgConnected;
               EvSelectCount (length tbl);
               EvPrint (MsgTableContains (length tbl));
               EvInput "no";
               EvPrint MsgImportCancelled;
               EvClose; EvPrint MsgClosed] /\
    Forall (fun ev => is_insert ev = false /\ is_truncate ev = false /\
                      is_commit ev = false) (trace s).
Proof.
  intros Hconn Hne Hno.
  rewrite main_declined by (rewrite ?Hno; simpl; congruence).
  eexists. split; [reflexivity|]. rewrite Hno. simpl.
  repeat split; repeat constructor.
Qed.

(** C10.  At the prompt of a table that holds rows, the TRUNCATE is
    executed exactly when the answer, lowercased, is the string "yes".  Any
    other answer ("y", the empty line and "yes" between spaces are such
    answers) cancels: the run returns normally with no INSERT, no TRUNCATE
    and no commit, and the table and its committed contents are what they
    were. *)
Theorem truncate_iff_yes w tbl :
  connect_ok w = true ->
  tbl <> [] ->
  exists r s,
    main w (initial tbl) = (r, s) /\
    (In EvTruncate (trace s) <-> lower (response w) = "yes") /\
    (lower (response w) <> "yes" ->
       r = Ok tt /\ table s = tbl /\ committed s = tbl /\
       In (EvPrint MsgImportCancelled) (trace s) /\
       Forall (fun ev => is_insert ev = false /\ is_truncate ev = false /\
                         is_commit ev = false) (trace s)) /\
    lower "y" <> "yes" /\ lower "" <> "yes" /\ lower " yes " <> "yes".
Proof.
  intros Hconn Hne.
  destruct (String.eqb_spec (lower (response w)) "yes") as [Hyes|Hno].
  - rewrite (main_confirmed w tbl Hconn Hne Hyes).
    match goal with
    | |- context [import_and_report w ?a] =>
        destruct (import_and_report_extends w a) as [evs Hevs];
        destruct (import_and_report w a) as [r s']
    end.
    exists r, (closed s'). split; [reflexivity|].
    split; [|split; [congruence|repeat split; discriminate]].
    split; [auto|]. intros _. simpl in *. rewrite Hevs.
    rewrite !in_app_iff. simpl. tauto.
  - rewrite (main_declined w tbl Hconn Hne Hno).
    eexists _, _. split; [reflexivity|]. simpl.
    split; [|split; [|repeat split; discriminate]].
    + split; [|contradiction].
      intros H. repeat (destruct H as [H|H]; [discriminate|]). contradiction.
    + intros _. repeat split; [tauto | repeat constructor].
Qed.

(** C4.  When the table holds rows and the operator answers "yes" (in any
    capitals), the TRUNCATE and its commit come before every INSERT of the
    run.  If the file is then read to its end, the run returns normally,
    the table holds exactly the rows inserted after the TRUNCATE, all
    committed, one for each record that raised no error; with no row error
    the table has as many rows as the file has records. *)
Theorem confirmed_clears_first w tbl :
  connect_ok w = true ->
  tbl <> [] ->
  lower (response w) = "yes" ->
  exists r s pre post,
    main w (initial tbl) = (r, s) /\
    trace s = pre ++ EvTruncate :: EvCommit :: post /\
    Forall (fun ev => is_insert ev = false) pre /\
    (forall rows, csv w = Readable rows true ->
       r = Ok tt /\
       table s = inserted post /\
       committed s = table s /\
       length (table s) = imported_count s /\
       imported_count s + error_count s = length rows /\
       (error_count s = 0 -> length (table s) = length rows)).
Proof.
  intros Hconn Hne Hyes.
  rewrite (main_confirmed w tbl Hconn Hne Hyes).
  set (s2 := logs _ _).
  destruct (import_and_report_extends w s2) as [evs Hevs].
  destruct (import_and_report w s2) as [r s'] eqn:Hrun.
  change (trace s' = trace s2 ++ evs) in Hevs.
  exists r, (closed s'),
    [EvPrint MsgRule; EvPrint MsgTitle; EvPrint MsgRule;
     EvConnect true; EvPrint MsgConnected;
     EvSelectCount (length tbl);
     EvPrint (MsgTableContains (length tbl));
     EvInput (response w)],
    (EvPrint MsgTableCleared :: evs ++ [EvClose; EvPrint MsgClosed]).
  split; [reflexivity|]. split; [|split].
  - simpl. rewrite Hevs. subst s2. simpl. reflexivity.
  - repeat constructor.
  - intros rows Hcsv.
    destruct (import_and_report_complete w rows s2 Hcsv)
      as (s'' & Hrun' & Ht & Hcm & Hi & Hc & _ & Htr).
    rewrite Hrun in Hrun'. injection Hrun' as -> <-.
    rewrite Hevs in Htr. apply app_inv_head in Htr. subst evs.
    simpl in Ht.
    change (inserted (EvPrint MsgTableCleared :: ?l)) with (inserted l).
    rewrite !inserted_app.
    destruct (report_events_prints s') as [-> _]. simpl.
    rewrite !app_nil_r, Hcm, Ht, Hi.
    repeat split; lia.
Qed.

(** On a session without faults the exit code is 0 or 1.  It is 1 exactly
    when the connection is not established, or when the import goes past
    the prompt and the file is not read to its end: it is missing, it
    cannot be opened, or reading it fails.  In particular a declined prompt
    exits with 0 whatever the file is. *)
Theorem exit_code_cases w tbl :
  let code := exit_code (fst (main w (initial tbl))) in
  (code = 0 \/ code = 1)%Z /\
  (code <> 0%Z <->
     connect_ok w = false \/ (proceeds w tbl /\ ~ read_to_end (csv w))) /\
  (connect_ok w = true -> ~ proceeds w tbl -> code = 0%Z).
Proof.
  cbv zeta. rewrite main_run.
  destruct (connect_ok w) eqn:Hconn; simpl.
  2:{ split; [auto|]. split; [|discriminate]. split; [auto|discriminate]. }
  rewrite import_csv_data_run. unfold proceeds, read_to_end. simpl.
  destruct tbl as [|p tbl]; simpl.
  - match goal with
    | |- context [import_and_report w ?a] =>
        destruct (import_and_report_outcome w a)
          as (evs & _ & _ & _ & [[Hr Ho] | [Hr Ho]]);
        destruct (import_and_report w a) as [r s']
    end; simpl in Ho; subst r; simpl.
    + split; [auto|]. split; [|reflexivity]. split; [congruence|].
      intros [? | [_ ?]]; [discriminate | contradiction].
    + split; [auto|]. split; [|intros _ []; auto]. split; [auto|discriminate].
  - destruct (String.eqb_spec (lower (response w)) "yes") as [Hyes|Hno].
    + match goal with
      | |- context [import_and_report w ?a] =>
          destruct (import_and_report_outcome w a)
            as (evs & _ & _ & _ & [[Hr Ho] | [Hr Ho]]);
          destruct (import_and_report w a) as [r s']
      end; simpl in Ho; subst r; simpl.
      * split; [auto|]. split; [|reflexivity]. split; [congruence|].
        intros [? | [_ ?]]; [discriminate | contradiction].
      * split; [auto|]. split; [|intros _ []; auto]. split; [auto|discriminate].
    + simpl. split; [auto|]. split; [|reflexivity]. split; [congruence|].
      intros [? | [[? | ?] _]]; [discriminate | discriminate | contradiction].
Qed.

(** C9.  In every run that established the connection, whether
    [import_csv_data] returns (the import done, or the prompt declined) or
    leaves by [sys.exit] (the file missing or unreadable), the connection
    is closed: [conn.close()] is the last statement of the run, it is
    executed once, and the connection is not open afterwards.  More
    generally the [finally] clause of [main] does so whatever its [try]
    body does, return or raise, and keeps the body's outcome. *)
Theorem connection_always_closed w tbl :
  connect_ok w = true ->
  (exists r s pre,
      main w (initial tbl) = (r, s) /\
      conn_open s = false /\
      trace s = pre ++ [EvClose; EvPrint MsgClosed] /\
      In (EvConnect true) pre /\
      ~ In EvClose pre) /\
  (forall (body : M unit) s0,
      let out := try_finally body (close ;; print MsgClosed) s0 in
      fst out = fst (body s0) /\
      conn_open (snd out) = false /\
      trace (snd out) = trace (snd (body s0)) ++ [EvClose; EvPrint MsgClosed]).
Proof.
  intros Hconn. split.
  - rewrite main_run, Hconn.
    destruct (import_csv_data_no_close w (connected tbl)) as (evs & Htr & Hev).
    destruct (import_csv_data w (connected tbl)) as [r s']. simpl in Htr.
    exists r, (closed s'), (trace s').
    split; [reflexivity|]. split; [reflexivity|]. split; [reflexivity|].
    rewrite Htr. split.
    + simpl. tauto.
    + simpl. intros H.
      repeat (destruct H as [H|H]; [discriminate|]).
      rewrite List.Forall_forall in Hev. exact (Hev _ H eq_refl).
  - intros body s0. unfold try_finally, close, print, bind.
    destruct (body s0) as [r s']. simpl.
    rewrite <- app_assoc. auto.
Qed.

(** C8, as the code has it.  The report prints the imported count; it
    prints the error count only when that count is positive; then it asks
    for the first five rows in the order of [transaction_date] and prints
    one line for each row it gets: five when the table has five rows or
    more, all of them otherwise.  The rows it gets are the first of the
    table put in the order of the dates: followed by the rows left out they
    are the whole table, sorted, so that no row left out is dated before a
    row shown.  The report follows every import phase that completed. *)
Theorem report_prints s :
  (forall a b, date_le a b = true \/ date_le b a = true) ->
  (exists fetched : list (params num),
      report s =
      (Ok tt,
       logs ([EvPrint MsgRule; EvPrint MsgCompleted;
              EvPrint (MsgImported (imported_count s))]
             ++ (if (0 <? error_count s)%nat
                 then [EvPrint (MsgErrors (error_count s))] else [])
             ++ [EvPrint MsgRule; EvSelectTop5 fetched;
                 EvPrint MsgSampleHeader; EvPrint MsgDashes]
             ++ map sample_line fetched) s) /\
      length fetched = Nat.min 5 (length (table s)) /\
      Sorted date_order fetched /\
      exists rest,
        Permutation (table s) (fetched ++ rest) /\
        Sorted date_order (fetched ++ rest) /\
        ((forall x y z, date_le x y = true -> date_le y z = true ->
                        date_le x z = true) ->
         forall a b, In a fetched -> In b rest -> date_order a b)) /\
  (forall w s0,
      fst (read_and_insert (csv w) (set_counts 0 0 s0)) = Ok tt ->
      import_and_report w s0 =
      report (snd (read_and_insert (csv w) (set_counts 0 0 s0)))).
Proof.
  intros Htotal. split.
  - exists (firstn 5 (order_by_date (table s))).
    split; [apply report_run|]. split; [|split].
    + rewrite length_take, (Permutation_length (order_by_date_perm _)).
      reflexivity.
    + apply Sorted_firstn, order_by_date_sorted, Htotal.
    + exists (skipn 5 (order_by_date (table s))).
      rewrite firstn_skipn. split; [|split].
      * symmetry. apply order_by_date_perm.
      * apply order_by_date_sorted, Htotal.
      * intros Htrans.
        apply (Sorted_app_before date_order).
        -- intros x y z. unfold date_order. apply Htrans.
        -- rewrite firstn_skipn. apply order_by_date_sorted, Htotal.
  - intros w s0 H.
    unfold import_and_report, bind, assign_counts, try_except.
    destruct (read_and_insert (csv w) (set_counts 0 0 s0)) as [[[]|e] s1];
      [reflexivity|discriminate].
Qed.

(** C6.  In every run that gets to read the file, the events of the loop
    are followed by one commit when the file was read to its end, and by no
    commit when reading failed.  Within the loop an event is a commit
    exactly when the event before it is a successful INSERT that brought
    the number of rows imported so far to a multiple of 100: records that
    raise an error are not counted.  So the loop commits once for every
    hundred rows imported, and after the final commit the run neither
    commits nor inserts. *)
Theorem commit_cadence w rows eof s :
  csv w = Readable rows eof ->
  exists body rest,
    trace (snd (import_and_report w s)) =
      trace s ++ [EvPrint MsgReadingFrom; EvPrint MsgImporting] ++ body ++ rest /\
    (forall pre ev post,
        body = pre ++ ev :: post ->
        (ev = EvCommit <->
         (exists p, last pre = Some (EvInsert p true)) /\
         length (inserted pre) mod 100 = 0)) /\
    length (List.filter is_commit body) = length (inserted body) / 100 /\
    (if eof
     then exists rep, rest = EvCommit :: rep /\
                      Forall (fun ev => is_insert ev = false /\
                                        is_commit ev = false) rep
     else rest = [EvPrint (MsgCsvReadError ReadError)]).
Proof.
  intros Hcsv. rewrite import_and_report_run, Hcsv. cbv zeta.
  set (s1 := logs [EvPrint MsgReadingFrom; EvPrint MsgImporting]
                  (set_counts 0 0 s)).
  pose proof (for_rows_trace rows s1) as Htr.
  pose proof (for_rows_commits rows s1) as Hn.
  change (imported_count s1) with 0 in Hn. simpl in Hn.
  exists (emitted (for_rows rows) s1).
  assert (forall pre ev post,
             emitted (for_rows rows) s1 = pre ++ ev :: post ->
             ev = EvCommit <->
             (exists p, last pre = Some (EvInsert p true)) /\
             length (inserted pre) mod 100 = 0) as Hcad.
  { intros pre ev post Heq.
    rewrite <- is_commit_true, (for_rows_cadence _ _ _ _ _ Heq).
    change (imported_count s1) with 0. rewrite commit_due_true. reflexivity. }
  destruct eof.
  - exists (EvCommit :: report_events
                         (log EvCommit
                              (set_committed (table (exec (for_rows rows) s1))
                                             (exec (for_rows rows) s1)))).
    cbn [snd trace logs log set_committed]. rewrite Htr. subst s1.
    cbn [trace logs set_counts]. rewrite <- !app_assoc.
    split; [reflexivity|]. split; [exact Hcad|]. split; [exact Hn|].
    eexists. split; [reflexivity|].
    match goal with
    | |- context [report_events ?a] =>
        destruct (report_events_prints a) as [_ H]
    end.
    eapply Forall_impl; [exact H|]. simpl. tauto.
  - exists [EvPrint (MsgCsvReadError ReadError)].
    cbn [snd trace logs log]. rewrite Htr. subst s1.
    cbn [trace logs set_counts]. rewrite <- !app_assoc.
    split; [reflexivity|]. split; [exact Hcad|]. split; [exact Hn|reflexivity].
Qed.

(** C2.  A record whose [amount] is a string that [float] does not read
    is skipped: the pass over it executes no statement and prints one error
    line, leaves the table, the committed table and [imported_count] as
    they were, and adds exactly 1 to [error_count].  The loop goes on to
    the records after it, and the run as a whole does to the database what
    it does for the file without that record: the same statements in the
    same order, the same table, the same [imported_count], and an
    [error_count] greater by 1. *)
Theorem unparseable_amount_skipped rows1 bad rows2 t s :
  bad !! "amount" = Some (PyStr t) ->
  float t = None ->
  let s1 := exec (for_rows rows1) s in
  let s2 := exec (import_row bad) s1 in
  let sa := exec (for_rows (rows1 ++ bad :: rows2)) s in
  let sb := exec (for_rows (rows1 ++ rows2)) s in
  (exists n e, trace s2 = trace s1 ++ [EvPrint (MsgRowError n e)]) /\
  table s2 = table s1 /\
  committed s2 = committed s1 /\
  imported_count s2 = imported_count s1 /\
  error_count s2 = error_count s1 + 1 /\
  for_rows (rows1 ++ bad :: rows2) s = (Ok tt, exec (for_rows rows2) s2) /\
  same_effects sa sb /\
  error_count sa = error_count sb + 1 /\
  (rows_accepted (table s) (rows1 ++ rows2) ->
   exists ps,
     Forall2 (fun row p => convert_row row = Ok p) (rows1 ++ rows2) ps /\
     table sa = table s ++ ps /\
     imported_count sa = imported_count s + length (rows1 ++ rows2)).
Proof.
  intros Hrow Hf. cbv zeta.
  destruct (unparseable_amount_raises bad t Hrow Hf) as [e C].
  pose proof (for_rows_accepted (rows1 ++ rows2) s) as Hacc.
  pose proof (for_rows_effects (rows1 ++ rows2) s) as (Ht & Hi & _).
  cbv zeta in Hacc.
  set (evs := emitted (for_rows (rows1 ++ rows2)) s) in *.
  rewrite !exec_for_rows_app in Ht, Hi.
  rewrite for_rows_Ok, !exec_for_rows_app, exec_for_rows_cons.
  set (s1 := exec (for_rows rows1) s) in *.
  assert (exec (import_row bad) s1 = after_error None e s1) as ->.
  { unfold exec.
    destruct (import_row_cases bad s1)
      as [(e' & C' & ->) | [(p & C' & _) | (p & C' & _)]]; try congruence.
    assert (e' = e) as -> by congruence. reflexivity. }
  assert (same_effects (after_error None e s1) s1) as Hsame.
  { unfold same_effects. simpl. rewrite List.filter_app. simpl.
    rewrite app_nil_r. auto. }
  destruct (for_rows_sim rows2 _ _ Hsame) as [H1 H2]. simpl in H2.
  split; [simpl; eauto|].
  do 4 (split; [reflexivity|]).
  split; [reflexivity|]. split; [exact H1|]. split; [lia|].
  intros Hr. destruct (Hacc Hr) as (F2 & _ & _).
  destruct H1 as (E1 & _ & E2 & _).
  exists (inserted evs). split; [exact F2|].
  rewrite E1, E2, Ht, Hi, (Forall2_length _ _ _ F2). auto.
Qed.

(** ** The exit code when statements can fail *)

Lemma import_row_faulty_Ok f row s : fst (import_row_faulty f row s) = Ok tt.
Proof.
  unfold import_row_faulty, try_except, bind, lift, execute_insert,
    assign_counts, read, commit_faulty, commit, raise, print, ret.
  destruct (convert_row row) as [p|e] eqn:C.
  - destruct (db_accepts (table s) p); [|reflexivity]. cbn [imported_count set_counts].
    destruct (Nat.eqb _ _); [|reflexivity].
    destruct (commit_ok f _); reflexivity.
  - rewrite (convert_row_Exception _ _ C). reflexivity.
Qed.

Lemma for_rows_faulty_Ok f rows s : fst (for_rows_faulty f rows s) = Ok tt.
Proof.
  revert s. induction rows as [|row rest IH]; intros s; [reflexivity|].
  simpl. unfold bind.
  pose proof (import_row_faulty_Ok f row s) as H.
  destruct (import_row_faulty f row s) as [r s']. simpl in H. subst r.
  apply IH.
Qed.

Lemma import_and_report_faulty_outcome f w s :
  fst (import_and_report_faulty f w s) = import_outcome f w.
Proof.
  unfold import_and_report_faulty, import_outcome, bind, assign_counts,
    try_except, read_and_insert_faulty.
  destruct (csv w) as [| |rows eof]; try reflexivity.
  unfold bind, print.
  match goal with
  | |- context [for_rows_faulty f rows ?a] =>
      pose proof (for_rows_faulty_Ok f rows a) as H;
      destruct (for_rows_faulty f rows a) as [r s2]
  end.
  simpl in H. subst r.
  destruct eof; [|reflexivity]. unfold ret, commit_faulty.
  destruct (commit_ok f Final); [|reflexivity]. unfold commit.
  unfold report_faulty, bind, print, read, select_top5_faulty, ret.
  destruct (0 <? _)%nat; destruct (select_ok f); try reflexivity;
    unfold select_top5; rewrite print_samples_run; reflexivity.
Qed.

(** The outcome of the whole run, by what the outside decides. *)
Lemma main_faulty_outcome f w tbl :
  fst (main_faulty f w (initial tbl)) =
  if connect_ok w then
    if count_ok f then
      match tbl with
      | [] => import_outcome f w
      | _ :: _ =>
          if stdin_open f then
            if String.eqb (lower (response w)) "yes" then
              if truncate_ok f then
                if commit_ok f AfterTruncate then import_outcome f w
                else Raise DbError
              else Raise DbError
            else Ok tt
          else Raise EOFError
      end
    else Raise DbError
  else Raise (SystemExit 1).
Proof.
  unfold main_faulty, get_connection, try_except, try_finally, connect, bind,
    print, sys_exit, raise, ret, close.
  destruct (connect_ok w); [|reflexivity].
  unfold import_csv_data_faulty, bind, select_count_faulty, select_count, raise.
  destruct (count_ok f); [|reflexivity].
  destruct tbl as [|p tbl]; cbn [initial table length Nat.ltb Nat.leb
                                 set_conn_open log].
  - match goal with
    | |- context [import_and_report_faulty f w ?a] =>
        rewrite <- (import_and_report_faulty_outcome f w a);
        destruct (import_and_report_faulty f w a) as [r s']
    end. reflexivity.
  - unfold print, input_faulty, input, raise.
    destruct (stdin_open f); [|reflexivity].
    destruct (String.eqb (lower (response w)) "yes"); [|reflexivity].
    unfold truncate_table_faulty, truncate_table, raise.
    destruct (truncate_ok f); [|reflexivity].
    unfold commit_faulty, commit, raise.
    destruct (commit_ok f AfterTruncate); [|reflexivity].
    match goal with
    | |- context [import_and_report_faulty f w ?a] =>
        rewrite <- (import_and_report_faulty_outcome f w a);
        destruct (import_and_report_faulty f w a) as [r s']
    end. reflexivity.
Qed.

Lemma for_rows_faulty_no_faults rows :
  for_rows_faulty no_faults rows = for_rows rows.
Proof.
  induction rows as [|row rest IH]; [reflexivity|].
  simpl. rewrite IH. reflexivity.
Qed.

Lemma import_and_report_faulty_no_faults w :
  import_and_report_faulty no_faults w = import_and_report w.
Proof.
  unfold import_and_report_faulty, import_and_report.
  assert (read_and_insert_faulty no_faults (csv w) = read_and_insert (csv w))
    as ->.
  { destruct (csv w) as [| |rows eof]; try reflexivity.
    simpl. rewrite for_rows_faulty_no_faults. reflexivity. }
  reflexivity.
Qed.

Lemma main_faulty_no_faults w : main_faulty no_faults w = main w.
Proof.
  unfold main_faulty, main, import_csv_data_faulty, import_csv_data.
  rewrite import_and_report_faulty_no_faults. reflexivity.
Qed.

(** Find the disjunct that holds. *)
Ltac pick_case :=
  match goal with
  | |- _ \/ _ => first [left; pick_case | right; pick_case]
  | |- _ /\ _ => split; pick_case
  | |- ~ (exists _, _) => intros [? ?]; discriminate
  | |- _ => first [reflexivity | assumption | discriminate]
  end.

(** No disjunct holds. *)
Ltac no_case H :=
  exfalso;
  repeat match goal with
         | H : _ \/ _ |- _ => destruct H
         | H : _ /\ _ |- _ => destruct H
         end;
  first [ congruence
        | match goal with
          | H : ~ (exists _, _) |- _ => apply H; eauto
          end ].

(** C7, as the code has it.  The exit code is 0 or 1.  It is 1 exactly
    when the connection is not established; or the count fails; or, the
    table holding rows, standard input is closed at the prompt, or the
    answer is yes and the TRUNCATE or its commit fails; or, the import
    going past the prompt, the file is not read to its end (it is missing,
    it cannot be opened, reading it fails), the final commit fails, or the
    sample SELECT fails.  A commit that fails inside the loop is a row
    error and does not change the exit code, and a declined prompt exits
    with 0 whatever the file is.  On a session without faults the run is
    [main]. *)
Theorem exit_code_with_faults f w tbl :
  let code := exit_code (fst (main_faulty f w (initial tbl))) in
  (code = 0 \/ code = 1)%Z /\
  (code <> 0%Z <->
     connect_ok w = false \/
     count_ok f = false \/
     (tbl <> [] /\ stdin_open f = false) \/
     (tbl <> [] /\ lower (response w) = "yes" /\
      (truncate_ok f = false \/ commit_ok f AfterTruncate = false)) \/
     (proceeds w tbl /\
      (~ read_to_end (csv w) \/ commit_ok f Final = false \/
       select_ok f = false))) /\
  main_faulty no_faults w = main w.
Proof.
  cbv zeta. split; [|split; [|apply main_faulty_no_faults]];
    rewrite main_faulty_outcome; unfold import_outcome, proceeds, read_to_end;
    destruct tbl as [|p tbl];
    destruct (String.eqb_spec (lower (response w)) "yes") as [Hyes|Hno];
    destruct (csv w) as [| |rows [|]];
    repeat match goal with
           | |- context [if ?b then _ else _] => destruct b
           end;
    cbn [exit_code]; auto;
    (split; [ intros H; first [contradiction H; reflexivity | pick_case]
            | intros H; first [discriminate | no_case H] ]).
Qed.

(** * Further properties of the script *)

(** ** Helper lemmas *)

(** A run that goes past the prompt enters [import_and_report] on an empty
    table, nothing inserted yet. *)
Lemma main_proceeds w tbl :
  connect_ok w = true ->
  proceeds w tbl ->
  exists s0,
    table s0 = [] /\ committed s0 = [] /\ inserted (trace s0) = [] /\
    List.filter is_insert (trace s0) = [] /\
    main w (initial tbl) =
    (let (r, s') := import_and_report w s0 in (r, closed s')).
Proof.
  intros Hconn Hp. destruct tbl as [|p tbl].
  - rewrite main_run, Hconn, import_csv_data_run.
    exists (log (EvSelectCount 0) (connected [])).
    repeat split; reflexivity.
  - destruct Hp as [Hp | Hyes]; [discriminate|].
    rewrite (main_confirmed w (p :: tbl) Hconn ltac:(discriminate) Hyes).
    eexists. split; [|split; [|split; [|split; [|reflexivity]]]]; reflexivity.
Qed.

Lemma import_row_alike row s s' :
  same_tables s s' ->
  same_tables (exec (import_row row) s) (exec (import_row row) s') /\
  error_count (exec (import_row row) s) + error_count s' =
  error_count (exec (import_row row) s') + error_count s.
Proof.
  intros (Ht & Hc & Hi). unfold exec, same_tables.
  destruct (import_row_cases row s)
    as [(e & C & ->) | [(p & C & D & ->) | (p & C & D & ->)]];
  destruct (import_row_cases row s')
    as [(e' & C' & ->) | [(p' & C' & D' & ->) | (p' & C' & D' & ->)]];
    try congruence;
    try (assert (p' = p) as -> by congruence; rewrite Ht in D; congruence).
  - simpl. repeat split; (assumption || lia).
  - simpl. repeat split; (assumption || lia).
  - assert (p' = p) as -> by congruence.
    unfold after_insert. simpl. rewrite Hi, Ht.
    destruct (Nat.eqb _ _); simpl; repeat split; (congruence || lia).
Qed.

Lemma for_rows_alike rows s s' :
  same_tables s s' ->
  same_tables (exec (for_rows rows) s) (exec (for_rows rows) s') /\
  error_count (exec (for_rows rows) s) + error_count s' =
  error_count (exec (for_rows rows) s') + error_count s.
Proof.
  revert s s'. induction rows as [|row rest IH]; intros s s' H.
  - unfold exec. simpl. split; [exact H|lia].
  - rewrite !exec_for_rows_cons.
    destruct (import_row_alike row s s' H) as [H1 H2].
    destruct (IH _ _ H1) as [H3 H4]. split; [exact H3|lia].
Qed.

(** What one pass of the loop body emits, by cases. *)
Lemma emitted_import_row row s :
  emitted (import_row row) s =
  match convert_row row with
  | Raise e =>
      [EvPrint (MsgRowError (imported_count s + (error_count s + 1)) e)]
  | Ok p =>
      if db_accepts (table s) p
      then EvInsert p true ::
           (if ((imported_count s + 1) mod 100 =? 0)%nat
            then [EvCommit; EvPrint (MsgProgress (imported_count s + 1))]
            else [])
      else [EvInsert p false;
            EvPrint (MsgRowError (imported_count s + (error_count s + 1))
                                 DbError)]
  end.
Proof.
  apply emitted_eq. unfold exec.
  destruct (import_row_cases row s)
    as [(e & C & ->) | [(p & C & D & ->) | (p & C & D & ->)]];
    rewrite C; try rewrite D; simpl.
  - reflexivity.
  - rewrite <- app_assoc. reflexivity.
  - unfold after_insert. simpl.
    destruct (Nat.eqb _ _); simpl; rewrite <- ?app_assoc; reflexivity.
Qed.

(** ** Records that the database rejects *)

(** X1.  A record that converts but whose INSERT the database rejects is
    skipped like one that does not convert: the INSERT is attempted once,
    nothing is added to the table or committed, [imported_count] stays and
    [error_count] grows by exactly 1; the loop goes on, and ends with the
    table, the committed table and the imported count of the file without
    that record, and an error count greater by 1. *)
Theorem rejected_record_skipped rows1 bad rows2 p s :
  convert_row bad = Ok p ->
  db_accepts (table (exec (for_rows rows1) s)) p = false ->
  let s1 := exec (for_rows rows1) s in
  let s2 := exec (import_row bad) s1 in
  let sa := exec (for_rows (rows1 ++ bad :: rows2)) s in
  let sb := exec (for_rows (rows1 ++ rows2)) s in
  (exists n, trace s2 =
             trace s1 ++ [EvInsert p false; EvPrint (MsgRowError n DbError)]) /\
  table s2 = table s1 /\
  committed s2 = committed s1 /\
  imported_count s2 = imported_count s1 /\
  error_count s2 = error_count s1 + 1 /\
  same_tables sa sb /\
  error_count sa = error_count sb + 1.
Proof.
  intros C D. cbv zeta.
  rewrite !exec_for_rows_app, exec_for_rows_cons.
  set (s1 := exec (for_rows rows1) s) in *.
  assert (exec (import_row bad) s1 = after_error (Some p) DbError s1) as ->.
  { unfold exec.
    destruct (import_row_cases bad s1)
      as [(e' & C' & _) | [(p' & C' & _ & ->) | (p' & C' & D' & _)]];
      try congruence.
    assert (p' = p) as -> by congruence. reflexivity. }
  assert (same_tables (after_error (Some p) DbError s1) s1) as Hsame.
  { unfold same_tables. simpl. auto. }
  destruct (for_rows_alike rows2 _ _ Hsame) as [H1 H2]. simpl in H2.
  split; [simpl; rewrite <- app_assoc; eauto|].
  do 4 (split; [reflexivity|]).
  split; [exact H1|lia].
Qed.

(** ** The number in an error line *)


(** ** A header without one of the columns *)

Lemma missing_column_raises row k :
  In k columns -> row !! k = None -> exists e, convert_row row = Raise e.
Proof.
  intros Hk Hrow. destruct (convert_row row) as [p|e] eqn:C; [|eauto].
  assert (exists p, convert_row row = Ok p) as H by eauto.
  apply convert_row_succeeds in H as [H _].
  rewrite List.Forall_forall in H. destruct (H k Hk) as [v Hv]. congruence.
Qed.

Lemma for_rows_all_raise rows s :
  Forall (fun row => exists e, convert_row row = Raise e) rows ->
  let s' := exec (for_rows rows) s in
  table s' = table s /\
  committed s' = committed s /\
  imported_count s' = imported_count s /\
  error_count s' = error_count s + length rows /\
  Forall (fun ev => is_statement ev = false) (emitted (for_rows rows) s).
Proof.
  intros H. revert s. induction H as [|row rest [e C] _ IH]; intros s; cbv zeta.
  - rewrite emitted_for_rows_nil. unfold exec. simpl.
    repeat split; (lia || constructor).
  - rewrite exec_for_rows_cons, emitted_for_rows_cons, emitted_import_row, C.
    assert (exec (import_row row) s = after_error None e s) as ->.
    { unfold exec.
      destruct (import_row_cases row s)
        as [(e' & C' & ->) | [(p & C' & _) | (p & C' & _)]]; try congruence.
      assert (e' = e) as -> by congruence. reflexivity. }
    destruct (IH (after_error None e s)) as (-> & -> & -> & -> & Hev).
    simpl. repeat split; try lia.
    constructor; [reflexivity|exact Hev].
Qed.

(** X3.  When the header of the file lacks one of the sixteen columns, no
    record converts: each raises an exception in the loop body before the
    INSERT is reached.  The run that goes past the prompt then attempts no
    INSERT, counts every record as an error, imports nothing, and still
    returns normally (exit code 0) with an empty table. *)
Theorem missing_column_imports_nothing w tbl rows k :
  connect_ok w = true ->
  proceeds w tbl ->
  csv w = Readable rows true ->
  In k columns ->
  Forall (fun row => row !! k = None) rows ->
  Forall (fun row => exists e, convert_row row = Raise e) rows /\
  exists s,
    main w (initial tbl) = (Ok tt, s) /\
    table s = [] /\
    committed s = [] /\
    imported_count s = 0 /\
    error_count s = length rows /\
    List.filter is_insert (trace s) = [].
Proof.
  intros Hconn Hp Hcsv Hk Hrows.
  assert (Forall (fun row => exists e, convert_row row = Raise e) rows) as Hr.
  { eapply Forall_impl; [exact Hrows|]. intros row H.
    exact (missing_column_raises row k Hk H). }
  split; [exact Hr|].
  destruct (main_proceeds w tbl Hconn Hp) as (s0 & Ht0 & Hc0 & _ & Hf0 & ->).
  destruct (import_and_report_complete w rows s0 Hcsv)
    as (s' & -> & Ht & Hcm & Hi & Hc & _ & Htr).
  set (s1 := logs [EvPrint MsgReadingFrom; EvPrint MsgImporting]
                  (set_counts 0 0 s0)) in *.
  destruct (for_rows_all_raise rows s1 Hr) as (_ & _ & _ & _ & Hev).
  pose proof (for_rows_effects rows s1) as (Ht1 & _).
  simpl in Ht1, Ht.
  assert (List.filter is_insert (emitted (for_rows rows) s1) = []) as Hnone.
  { apply filter_none. eapply Forall_impl; [exact Hev|].
    intros [] H; simpl in *; congruence. }
  assert (inserted (emitted (for_rows rows) s1) = []) as Hins.
  { clear - Hev. induction Hev as [|ev l H _ IH]; [reflexivity|].
    destruct ev as [| | | | | |p [|]| |]; simpl in *; congruence. }
  exists (closed s'). split; [reflexivity|].
  cbn [table committed imported_count error_count closed logs set_conn_open
       set_table trace].
  rewrite Hcm, Ht, Ht0, Hins in *. simpl in Hi.
  repeat split; try lia.
  rewrite Htr, !List.filter_app, Hf0, Hnone, report_events_no_insert.
  reflexivity.
Qed.

(** ** The file fails after the table was cleared *)

(** X4.  The TRUNCATE is committed before the file is opened: when the
    operator confirms and the file is then missing or cannot be opened, the
    run exits with code 1 and the table is empty, the rows it held gone for
    good. *)
Theorem confirmed_then_no_file w tbl :
  connect_ok w = true ->
  tbl <> [] ->
  lower (response w) = "yes" ->
  csv w = Missing \/ csv w = OpenError ->
  exists s,
    main w (initial tbl) = (Raise (SystemExit 1), s) /\
    table s = [] /\
    committed s = [] /\
    In EvTruncate (trace s) /\
    List.filter is_insert (trace s) = [].
Proof.
  intros Hconn Hne Hyes Hcsv.
  rewrite (main_confirmed w tbl Hconn Hne Hyes), import_and_report_run.
  destruct Hcsv as [-> | ->]; eexists; (split; [reflexivity|]); simpl;
    repeat split; tauto.
Qed.

(** ** What is committed when reading fails *)




(** ** Importing again *)

Lemma import_and_report_alike w s s' :
  table s = table s' ->
  committed s = committed s' ->
  fst (import_and_report w s) = fst (import_and_report w s') /\
  same_tables (snd (import_and_report w s)) (snd (import_and_report w s')) /\
  error_count (snd (import_and_report w s)) =
  error_count (snd (import_and_report w s')).
Proof.
  intros Ht Hc. rewrite !import_and_report_run.
  destruct (csv w) as [| |rows eof]; cbv zeta.
  - unfold same_tables. simpl. auto.
  - unfold same_tables. simpl. auto.
  - set (s1 := logs _ (set_counts 0 0 s)).
    set (s1' := logs _ (set_counts 0 0 s')).
    assert (same_tables s1 s1') as Hs by (unfold same_tables; simpl; auto).
    destruct (for_rows_alike rows s1 s1' Hs) as [(H1 & H2 & H3) H4].
    simpl in H4.
    destruct eof; unfold same_tables;
      cbn [fst snd logs log set_committed
           table committed imported_count error_count];
      rewrite ?H1; repeat split; (assumption || lia).
Qed.

(** X6.  Importing over a table that holds rows, after the operator
    confirmed, ends like importing the same file into an empty table: the
    same outcome, the same table and committed table, the same
    [imported_count] and [error_count]. *)
Theorem reimport_equals_fresh_import w tbl :
  connect_ok w = true ->
  lower (response w) = "yes" ->
  let again := main w (initial tbl) in
  let fresh := main w (initial []) in
  fst again = fst fresh /\
  table (snd again) = table (snd fresh) /\
  committed (snd again) = committed (snd fresh) /\
  imported_count (snd again) = imported_count (snd fresh) /\
  error_count (snd again) = error_count (snd fresh).
Proof.
  intros Hconn Hyes. cbv zeta.
  destruct (main_proceeds w tbl Hconn (or_intror Hyes))
    as (s0 & Ht0 & Hc0 & _ & _ & ->).
  destruct (main_proceeds w [] Hconn (or_introl eq_refl))
    as (s0' & Ht0' & Hc0' & _ & _ & ->).
  destruct (import_and_report_alike w s0 s0') as (Hr & (H1 & H2 & H3) & H4);
    [congruence | congruence |].
  destruct (import_and_report w s0) as [r s'].
  destruct (import_and_report w s0') as [r' s''].
  simpl in *. auto.
Qed.

(** ** The answers that confirm *)

Lemma lower_ascii_y c : lower_ascii c = "y"%char -> c = "y"%char \/ c = "Y"%char.
Proof.
  destruct c as [[] [] [] [] [] [] [] []]; vm_compute; intros H;
    first [discriminate H | auto].
Qed.

Lemma lower_ascii_e c : lower_ascii c = "e"%char -> c = "e"%char \/ c = "E"%char.
Proof.
  destruct c as [[] [] [] [] [] [] [] []]; vm_compute; intros H;
    first [discriminate H | auto].
Qed.

Lemma lower_ascii_s c : lower_ascii c = "s"%char -> c = "s"%char \/ c = "S"%char.
Proof.
  destruct c as [[] [] [] [] [] [] [] []]; vm_compute; intros H;
    first [discriminate H | auto].
Qed.

Lemma lower_yes_spellings (a : string) :
  lower a = "yes" <-> In a yes_spellings.
Proof.
  split.
  - destruct a as [|c1 [|c2 [|c3 [|c4 r]]]]; simpl; try discriminate.
    intros H. injection H as H1 H2 H3.
    apply lower_ascii_y in H1. apply lower_ascii_e in H2.
    apply lower_ascii_s in H3.
    destruct H1 as [-> | ->], H2 as [-> | ->], H3 as [-> | ->]; tauto.
  - intros H. simpl in H.
    repeat (destruct H as [<- | H]; [reflexivity|]). contradiction.
Qed.

(** X7.  At the prompt of a table that holds rows, the answers that lead
    to the TRUNCATE are the eight spellings of "yes" in small letters and
    capitals, and no other line. *)
Theorem truncate_spellings w tbl :
  connect_ok w = true ->
  tbl <> [] ->
  (In EvTruncate (trace (snd (main w (initial tbl)))) <->
   In (response w) yes_spellings).
Proof.
  intros Hconn Hne. rewrite <- lower_yes_spellings.
  destruct (String.eqb_spec (lower (response w)) "yes") as [Hyes|Hno].
  - rewrite (main_confirmed w tbl Hconn Hne Hyes).
    match goal with
    | |- context [import_and_report w ?a] =>
        destruct (import_and_report_extends w a) as [evs Hevs];
        destruct (import_and_report w a) as [r s']
    end.
    simpl in *. rewrite Hevs. split; [auto|]. intros _.
    rewrite !in_app_iff. simpl. tauto.
  - rewrite (main_declined w tbl Hconn Hne Hno). simpl.
    split; [|contradiction].
    intros H. repeat (destruct H as [H|H]; [discriminate|]). contradiction.
Qed.

(** ** The exceptions of the conversion *)

(** X8.  The conversion of a record raises only three exceptions: a
    [KeyError] for one of the sixteen columns, which the record then
    lacks; a [ValueError] when [balance_after] or [amount] is a string that
    [float] does not read; a [TypeError] when one of the two is [None]. *)
Theorem convert_row_raises row e :
  convert_row row = Raise e ->
  (exists k, e = KeyError k /\ In k columns /\ row !! k = None) \/
  (e = ValueError /\
   exists k t, (k = "balance_after" \/ k = "amount") /\
               row !! k = Some (PyStr t) /\ float t = None) \/
  (e = TypeError /\
   exists k, (k = "balance_after" \/ k = "amount") /\
             row !! k = Some PyNone).
Proof.
  unfold convert_row. intros H.
  repeat (let v := fresh "v" in
          let E := fresh "E" in
          apply rbind_Raise in H as [H | (v & E & H)];
          [ first [ apply getitem_Raise in H as [H ->];
                    left; eexists; split; [reflexivity|];
                    split; [simpl; tauto|exact H]
                  | idtac ] | ]);
    try discriminate; rewrite getitem_Ok in *.
  - unfold convert_balance_after in H.
    destruct (py_eq v2 ""); [discriminate|].
    apply rbind_Raise in H as [H | (? & _ & H)]; [|discriminate].
    apply py_float_Raise in H as [[-> ->] | (t & -> & Hf & ->)]; right.
    + right. split; [reflexivity|]. exists "balance_after". auto.
    + left. split; [reflexivity|]. exists "balance_after", t. auto.
  - apply py_float_Raise in H as [[-> ->] | (t & -> & Hf & ->)]; right.
    + right. split; [reflexivity|]. exists "amount". auto.
    + left. split; [reflexivity|]. exists "amount", t. auto.
Qed.

(** ** Lines with too few fields *)

(** X9.  For a line shorter than the header the reader gives [None] for
    the fields it lacks.  A [None] in [recurring_frequency] or [notes]
    becomes NULL, but a [None] in [is_recurring] becomes 0, not NULL; and a
    record whose [balance_after] or [amount] is [None] does not convert. *)
Theorem short_line_fields row :
  (forall p, convert_row row = Ok p ->
     (row !! "is_recurring" = Some PyNone -> is_recurring p = SqlInt 0) /\
     (row !! "recurring_frequency" = Some PyNone ->
        recurring_frequency p = SqlNull) /\
     (row !! "notes" = Some PyNone -> notes p = SqlNull)) /\
  (row !! "balance_after" = Some PyNone \/ row !! "amount" = Some PyNone ->
   exists e, convert_row row = Raise e).
Proof.
  split.
  - intros p H.
    apply convert_row_Ok in H
      as (v_rec & v_freq & v_notes & v_bal & v_amt & x &
          Hrec & Hfreq & Hnotes & _ & _ & -> & -> & -> & _).
    rewrite Hrec, Hfreq, Hnotes.
    repeat split; intros [= ->]; reflexivity.
  - intros Hnone. destruct (convert_row row) as [p|e] eqn:C; [|eauto].
    apply convert_row_Ok in C
      as (? & ? & ? & v_bal & v_amt & x &
          _ & _ & _ & Hb & Ha & _ & _ & _ & Cb & Ca & _).
    destruct Hnone as [H | H].
    + rewrite H in Hb. injection Hb as <-. discriminate Cb.
    + rewrite H in Ha. injection Ha as <-. discriminate Ca.
Qed.

(** ** An empty table, and a connection that fails *)

(** X10.  On an empty table the operator is not asked and nothing is
    truncated, so the run does not depend on what the operator would
    type: two runs with the same file do the same. *)
Theorem empty_table_never_prompts w :
  connect_ok w = true ->
  Forall (fun ev => ev <> EvTruncate /\ forall a, ev <> EvInput a)
         (trace (snd (main w (initial [])))) /\
  (forall w', connect_ok w' = true -> csv w' = csv w ->
              main w' (initial []) = main w (initial [])).
Proof.
  intros Hconn. split.
  - rewrite main_run, Hconn, import_csv_data_run. cbv zeta.
    change (0 <? length (table (connected [])))%nat with false. cbv iota.
    destruct (import_and_report_outcome w
                (log (EvSelectCount (length (table (connected [])))) (connected [])))
      as (evs & Htr & Hev & _).
    destruct (import_and_report w _) as [r s']. simpl in Htr.
    cbn [snd closed logs trace set_conn_open set_table]. rewrite Htr.
    repeat (apply List.Forall_cons; [split; [discriminate|intros; discriminate]|]).
    apply Forall_app. split.
    + eapply Forall_impl; [exact Hev|].
      intros [] H; simpl in H; try contradiction;
        (split; [discriminate|intros; discriminate]).
    + repeat (apply List.Forall_cons;
              [split; [discriminate|intros; discriminate]|]).
      constructor.
  - intros w' Hconn' Hcsv.
    rewrite !main_run, Hconn, Hconn', !import_csv_data_run. cbv zeta.
    change (0 <? length (table (connected [])))%nat with false. cbv iota.
    rewrite !import_and_report_run, Hcsv. reflexivity.
Qed.

(** X11.  When the connection cannot be established the run prints the
    error and exits with code 1 at once: no statement is sent to the
    database, [conn.close()] is not called, and the table is what it
    was. *)
Theorem connection_failure_sends_nothing w tbl :
  connect_ok w = false ->
  exists s,
    main w (initial tbl) = (Raise (SystemExit 1), s) /\
    table s = tbl /\
    committed s = tbl /\
    conn_open s = false /\
    List.filter is_statement (trace s) = [EvConnect false] /\
    In (EvPrint MsgConnectError) (trace s).
Proof.
  intros Hconn. rewrite main_run, Hconn.
  eexists. split; [reflexivity|]. simpl. repeat split. tauto.
Qed.

(** ** What the table holds after the loop *)

(** X12.  The loop appends to the table, in the order of the file, the
    converted parameters of the records it imported, and nothing else:
    each record of the file gives at most one row. *)
Theorem imported_rows_in_file_order rows s :
  exists kept,
    sublist kept rows /\
    Forall2 (fun row p => convert_row row = Ok p) kept
            (inserted (emitted (for_rows rows) s)) /\
    table (exec (for_rows rows) s) =
    table s ++ inserted (emitted (for_rows rows) s).
Proof.
  pose proof (for_rows_effects rows s) as (Ht & _). cbv zeta in Ht.
  assert (exists kept,
             sublist kept rows /\
             Forall2 (fun row p => convert_row row = Ok p) kept
                     (inserted (emitted (for_rows rows) s))) as (kept & H1 & H2).
  { clear Ht. revert s. induction rows as [|row rest IH]; intros s.
    - exists []. rewrite emitted_for_rows_nil. split; constructor.
    - rewrite emitted_for_rows_cons, inserted_app.
      destruct (IH (exec (import_row row) s)) as (kept & Hs & Hf).
      destruct (import_row_step row s)
        as [(e & n & _ & _ & ->) | (p & C & _ & _ & ->)].
      + exists kept. split; [apply sublist_cons, Hs|exact Hf].
      + exists (row :: kept). split; [apply sublist_skip, Hs|].
        simpl. constructor; assumption. }
  exists kept. auto.
Qed.


End Properties.

(** * Examples, on the concrete platform *)

Example float_plain_reads : float_plain "-12.50" = Some ((-1250)%Z, 2).
Proof. reflexivity. Qed.

Example float_plain_rejects : float_plain "12,50" = None.
Proof. reflexivity. Qed.

Example lower_Yes : lower "YeS" = "yes".
Proof. reflexivity. Qed.

Example garbled_raises : convert_row (P := plain) garbled = Raise ValueError.
Proof. vm_compute. reflexivity. Qed.

(** The run on the file with the garbled record: two rows in, one error. *)
Example garbled_run_counts :
  let s := snd (main (P := plain) garbled_file (initial [])) in
  imported_count s = 2 /\ error_count s = 1 /\ length (table s) = 2 /\
  committed s = table s /\
  fst (main (P := plain) garbled_file (initial [])) = Ok tt.
Proof. vm_compute. repeat split. Qed.

(** With a primary key, the second of two records with one id is rejected. *)
Example duplicate_rejected :
  let w := answering "" (Readable [groceries; groceries] true) in
  let s := snd (main (P := keyed) w (initial [])) in
  imported_count s = 1 /\ error_count s = 1 /\ length (table s) = 1.
Proof. vm_compute. repeat split. Qed.

(** A file of 250 records: two commits in the loop, one at the end. *)
Example commits_of_250 :
  let w := answering "" (Readable (repeat groceries 250) true) in
  let s := snd (main (P := plain) w (initial [])) in
  length (List.filter is_commit (trace s)) = 3 /\ imported_count s = 250.
Proof. vm_compute. split; reflexivity. Qed.

(** A file that ends in a read error: the rows since the last commit are
    rolled back when the connection is closed. *)
Example read_error_rolls_back :
  let w := answering "" (Readable [groceries; salary] false) in
  let out := main (P := plain) w (initial []) in
  fst out = Raise (SystemExit 1) /\
  imported_count (snd out) = 2 /\ length (table (snd out)) = 0.
Proof. vm_compute. repeat split. Qed.

Example groceries_converts :
  convert_row (P := plain) groceries = Ok groceries_params.
Proof. vm_compute. reflexivity. Qed.

Example salary_converts : convert_row (P := plain) salary = Ok salary_params.
Proof. vm_compute. reflexivity. Qed.

Lemma good_rows_accepted : rows_accepted (P := plain) [] [groceries; salary].
Proof.
  cbn [rows_accepted].
  exists groceries_params. split; [apply groceries_converts|].
  split; [reflexivity|].
  exists salary_params. split; [apply salary_converts|].
  split; [reflexivity|exact I].
Qed.

Lemma date_le_iso_total (a b : sqlval (Z * nat)) :
  date_le_iso a b = true \/ date_le_iso b a = true.
Proof.
  destruct a as [|x|z|x], b as [|y|z'|y]; simpl; auto.
  apply String.leb_total.
Qed.

(** * The claims at concrete runs *)

Lemma import_clean_table_witness :
  connect_ok good_file = true /\
  csv good_file = Readable [groceries; salary] true /\
  rows_accepted (P := plain) [] [groceries; salary] /\
  exists s,
    main (P := plain) good_file (initial []) = (Ok tt, s) /\
    length (table s) = 2 /\ imported_count s = 2 /\ error_count s = 0.
Proof.
  split; [reflexivity|]. split; [reflexivity|].
  split; [exact good_rows_accepted|].
  destruct (import_clean_table (P := plain) good_file [groceries; salary]
              eq_refl eq_refl good_rows_accepted)
    as (s & Hm & _ & Hl & _ & _ & Hi & He & _).
  exists s. auto.
Defined.

Lemma unparseable_amount_skipped_witness :
  garbled !! "amount" = Some (PyStr "12,50") /\
  float (Platform := plain) "12,50" = None /\
  let sa := exec (for_rows (P := plain) ([groceries] ++ garbled :: [salary]))
                 (initial []) in
  let sb := exec (for_rows (P := plain) ([groceries] ++ [salary]))
                 (initial []) in
  same_effects sa sb /\ error_count sa = error_count sb + 1.
Proof.
  assert (garbled !! "amount" = Some (PyStr "12,50")) as H1
      by (vm_compute; reflexivity).
  assert (float (Platform := plain) "12,50" = None) as H2 by reflexivity.
  split; [exact H1|]. split; [exact H2|].
  destruct (unparseable_amount_skipped (P := plain)
              [groceries] garbled [salary] "12,50" (initial []) H1 H2)
    as (_ & _ & _ & _ & _ & _ & Hs & He & _).
  split; [exact Hs|exact He].
Defined.

Lemma convert_row_fields_witness :
  convert_row (P := plain) groceries = Ok groceries_params /\
  is_recurring groceries_params = SqlInt 1 /\
  notes groceries_params = SqlNull /\
  exists x, float (Platform := plain) "-12.50" = Some x /\
            amount groceries_params = SqlFloat x.
Proof.
  pose proof groceries_converts as C. split; [exact C|].
  destruct (convert_row_fields (P := plain) groceries) as [H _].
  destruct (H groceries_params C) as (_ & _ & Hn & _ & Ht & _ & _ & Ha).
  split; [apply Ht; vm_compute; reflexivity|].
  split; [apply Hn; vm_compute; reflexivity|].
  apply Ha. vm_compute. reflexivity.
Defined.

Lemma confirmed_clears_first_witness :
  connect_ok (answering "Yes" (Readable [groceries; salary] true)) = true /\
  [stored] <> [] /\
  lower "Yes" = "yes" /\
  exists r s pre post,
    main (P := plain) (answering "Yes" (Readable [groceries; salary] true))
         (initial (P := plain) [stored]) = (r, s) /\
    trace s = pre ++ EvTruncate :: EvCommit :: post /\
    r = Ok tt /\ table s = inserted post.
Proof.
  split; [reflexivity|]. split; [discriminate|]. split; [reflexivity|].
  destruct (confirmed_clears_first (P := plain)
              (answering "Yes" (Readable [groceries; salary] true)) [stored]
              eq_refl ltac:(discriminate) eq_refl)
    as (r & s & pre & post & Hm & Ht & _ & Hc).
  destruct (Hc [groceries; salary] eq_refl) as (Hr & Htab & _).
  exists r, s, pre, post. auto.
Defined.

Lemma declined_leaves_table_witness :
  connect_ok (answering "no" Missing) = true /\
  [stored] <> [] /\
  response (answering "no" Missing) = "no" /\
  exists s,
    main (P := plain) (answering "no" Missing) (initial (P := plain) [stored]) = (Ok tt, s) /\
    table s = [stored] /\ committed s = [stored].
Proof.
  split; [reflexivity|]. split; [discriminate|]. split; [reflexivity|].
  destruct (declined_leaves_table (P := plain) (answering "no" Missing) [stored]
              eq_refl ltac:(discriminate) eq_refl)
    as (s & Hm & Ht & Hc & _).
  exists s. auto.
Defined.

Lemma commit_cadence_witness :
  csv good_file = Readable [groceries; salary] true /\
  exists body rest,
    trace (snd (import_and_report (P := plain) good_file (initial []))) =
      [EvPrint MsgReadingFrom; EvPrint MsgImporting] ++ body ++ rest /\
    length (List.filter is_commit body) = length (inserted body) / 100 /\
    exists rep, rest = EvCommit :: rep.
Proof.
  split; [reflexivity|].
  destruct (commit_cadence (P := plain) good_file [groceries; salary] true
              (initial []) eq_refl)
    as (body & rest & Ht & _ & Hn & rep & Hr & _).
  exists body, rest. split; [exact Ht|]. split; [exact Hn|]. eauto.
Defined.

Lemma exit_code_cases_witness :
  (exit_code (fst (main (P := plain) unopenable_file (initial []))) <> 0%Z <->
   connect_ok unopenable_file = false \/
   (proceeds (P := plain) unopenable_file [] /\ ~ read_to_end (csv unopenable_file))).
Proof.
  destruct (exit_code_cases (P := plain) unopenable_file []) as (_ & H & _).
  exact H.
Defined.

Lemma report_prints_witness :
  (forall a b, date_le (Platform := plain) a b = true \/
               date_le (Platform := plain) b a = true) /\
  exists fetched : list (params (Z * nat)),
    length fetched = Nat.min 5 (length (table (initial (P := plain) [stored]))) /\
    Sorted (date_order (P := plain)) fetched /\
    exists rest,
      Permutation (table (initial (P := plain) [stored])) (fetched ++ rest) /\
      Sorted (date_order (P := plain)) (fetched ++ rest).
Proof.
  split; [exact date_le_iso_total|].
  destruct (report_prints (P := plain) (initial (P := plain) [stored]) date_le_iso_total)
    as [(fetched & _ & Hl & Hs & rest & Hp & Hsr & _) _].
  exists fetched. split; [exact Hl|]. split; [exact Hs|]. eauto.
Defined.

Lemma connection_always_closed_witness :
  connect_ok good_file = true /\
  exists r s pre,
    main (P := plain) good_file (initial (P := plain) [stored]) = (r, s) /\
    conn_open s = false /\
    trace s = pre ++ [EvClose; EvPrint MsgClosed].
Proof.
  split; [reflexivity|].
  destruct (connection_always_closed (P := plain) good_file [stored] eq_refl)
    as [(r & s & pre & Hm & Ho & Ht & _) _].
  exists r, s, pre. auto.
Defined.

Lemma truncate_iff_yes_witness :
  connect_ok (answering " yes " Missing) = true /\
  [stored] <> [] /\
  exists r s,
    main (P := plain) (answering " yes " Missing) (initial (P := plain) [stored]) = (r, s) /\
    (In EvTruncate (trace s) <-> lower " yes " = "yes").
Proof.
  split; [reflexivity|]. split; [discriminate|].
  destruct (truncate_iff_yes (P := plain) (answering " yes " Missing) [stored]
              eq_refl ltac:(discriminate))
    as (r & s & Hm & Hi & _).
  exists r, s. auto.
Defined.

(** A file that is there but cannot be opened ends the run with code 1,
    and a missing file does not when the prompt is declined: the exit code
    is not decided by the connection and the missing file alone. *)
Lemma exit_code_file_present :
  (exit_code (fst (main (P := plain) unopenable_file (initial []))) = 1%Z /\
   connect_ok unopenable_file = true /\
   csv unopenable_file <> Missing) /\
  (exit_code (fst (main (P := plain) (answering "no" Missing)
                        (initial (P := plain) [stored]))) = 0%Z /\
   connect_ok (answering "no" Missing) = true /\
   csv (answering "no" Missing) = Missing).
Proof.
  split; (split; [vm_compute; reflexivity|]); split;
    first [reflexivity | discriminate].
Qed.

(** The run on the two good records completes its import and its report,
    yet no line with the error count is printed, and the report shows two
    sample rows, not five. *)
Lemma report_omits_error_count :
  let out := main (P := plain) good_file (initial []) in
  fst out = Ok tt /\
  error_count (snd out) = 0 /\
  existsb is_error_count_line (trace (snd out)) = false /\
  length (List.filter is_sample_line (trace (snd out))) = 2.
Proof. vm_compute. repeat split. Qed.

(** * The further properties at concrete runs *)

Lemma rejected_record_skipped_witness :
  convert_row (P := keyed) groceries = Ok groceries_params /\
  db_accepts (Platform := keyed)
    (table (exec (for_rows (P := keyed) [groceries]) (initial [])))
    groceries_params = false /\
  let sa := exec (for_rows (P := keyed) ([groceries] ++ groceries :: [salary]))
                 (initial []) in
  let sb := exec (for_rows (P := keyed) ([groceries] ++ [salary]))
                 (initial []) in
  same_tables sa sb /\ error_count sa = error_count sb + 1.
Proof.
  assert (convert_row (P := keyed) groceries = Ok groceries_params) as H1
      by (vm_compute; reflexivity).
  assert (db_accepts (Platform := keyed)
            (table (exec (for_rows (P := keyed) [groceries]) (initial [])))
            groceries_params = false) as H2
      by (vm_compute; reflexivity).
  split; [exact H1|]. split; [exact H2|].
  destruct (rejected_record_skipped (P := keyed)
              [groceries] groceries [salary] groceries_params (initial [])
              H1 H2)
    as (_ & _ & _ & _ & _ & Hs & He).
  split; [exact Hs|exact He].
Defined.


Lemma missing_column_imports_nothing_witness :
  connect_ok (answering "" (Readable [no_notes_column] true)) = true /\
  proceeds (P := plain) (answering "" (Readable [no_notes_column] true)) [] /\
  In "notes" columns /\
  Forall (fun row : gmap string pyval => row !! "notes" = None)
         [no_notes_column] /\
  exists s,
    main (P := plain) (answering "" (Readable [no_notes_column] true))
         (initial []) = (Ok tt, s) /\
    imported_count s = 0 /\ error_count s = 1.
Proof.
  assert (In "notes" columns) as Hk by (simpl; tauto).
  assert (Forall (fun row : gmap string pyval => row !! "notes" = None)
                 [no_notes_column]) as Hr
      by (constructor; [vm_compute; reflexivity|constructor]).
  split; [reflexivity|]. split; [left; reflexivity|].
  split; [exact Hk|]. split; [exact Hr|].
  destruct (missing_column_imports_nothing (P := plain)
              (answering "" (Readable [no_notes_column] true)) []
              [no_notes_column] "notes"
              eq_refl (or_introl eq_refl) eq_refl Hk Hr)
    as (_ & s & Hm & _ & _ & Hi & He & _).
  exists s. auto.
Defined.

Lemma confirmed_then_no_file_witness :
  connect_ok (answering "YES" Missing) = true /\
  [stored] <> [] /\
  lower "YES" = "yes" /\
  exists s,
    main (P := plain) (answering "YES" Missing) (initial (P := plain) [stored])
    = (Raise (SystemExit 1), s) /\
    table s = [] /\ committed s = [].
Proof.
  split; [reflexivity|]. split; [discriminate|]. split; [reflexivity|].
  destruct (confirmed_then_no_file (P := plain) (answering "YES" Missing)
              [stored] eq_refl ltac:(discriminate) eq_refl
              (or_introl eq_refl))
    as (s & Hm & Ht & Hc & _).
  exists s. auto.
Defined.


Lemma reimport_equals_fresh_import_witness :
  connect_ok (answering "yes" (Readable [groceries; salary] true)) = true /\
  lower "yes" = "yes" /\
  table (snd (main (P := plain)
                (answering "yes" (Readable [groceries; salary] true))
                (initial (P := plain) [stored]))) =
  table (snd (main (P := plain)
                (answering "yes" (Readable [groceries; salary] true))
                (initial []))).
Proof.
  split; [reflexivity|]. split; [reflexivity|].
  destruct (reimport_equals_fresh_import (P := plain)
              (answering "yes" (Readable [groceries; salary] true)) [stored]
              eq_refl eq_refl) as (_ & H & _).
  exact H.
Defined.

Lemma truncate_spellings_witness :
  connect_ok (answering "yEs" Missing) = true /\
  [stored] <> [] /\
  (In EvTruncate
      (trace (snd (main (P := plain) (answering "yEs" Missing)
                        (initial (P := plain) [stored])))) <->
   In "yEs" yes_spellings).
Proof.
  split; [reflexivity|]. split; [discriminate|].
  exact (truncate_spellings (P := plain) (answering "yEs" Missing) [stored]
           eq_refl ltac:(discriminate)).
Defined.

Lemma convert_row_raises_witness :
  convert_row (P := plain) garbled = Raise ValueError /\
  ((exists k, ValueError = KeyError k /\ In k columns /\ garbled !! k = None) \/
   (ValueError = ValueError /\
    exists k t, (k = "balance_after" \/ k = "amount") /\
                garbled !! k = Some (PyStr t) /\
                float (Platform := plain) t = None) \/
   (ValueError = TypeError /\
    exists k, (k = "balance_after" \/ k = "amount") /\
              garbled !! k = Some PyNone)).
Proof.
  assert (convert_row (P := plain) garbled = Raise ValueError) as H
      by (vm_compute; reflexivity).
  split; [exact H|].
  exact (convert_row_raises (P := plain) garbled ValueError H).
Defined.

Lemma short_line_fields_witness :
  exists p,
    convert_row (P := plain) short_line = Ok p /\
    is_recurring p = SqlInt 0 /\ notes p = SqlNull.
Proof.
  destruct (convert_row (P := plain) short_line) as [p|e] eqn:C;
    [|vm_compute in C; discriminate C].
  destruct (short_line_fields (P := plain) short_line) as [H _].
  destruct (H p C) as (H1 & _ & H3).
  exists p. split; [reflexivity|]. split.
  - apply H1. vm_compute. reflexivity.
  - apply H3. vm_compute. reflexivity.
Defined.

Lemma empty_table_never_prompts_witness :
  connect_ok good_file = true /\
  forall w', connect_ok w' = true -> csv w' = csv good_file ->
             main (P := plain) w' (initial []) =
             main (P := plain) good_file (initial []).
Proof.
  split; [reflexivity|].
  destruct (empty_table_never_prompts (P := plain) good_file eq_refl)
    as [_ H].
  exact H.
Defined.

Lemma connection_failure_sends_nothing_witness :
  connect_ok no_database = false /\
  exists s,
    main (P := plain) no_database (initial (P := plain) [stored])
    = (Raise (SystemExit 1), s) /\
    table s = [stored] /\
    List.filter is_statement (trace s) = [EvConnect false].
Proof.
  split; [reflexivity|].
  destruct (connection_failure_sends_nothing (P := plain) no_database [stored]
              eq_refl) as (s & Hm & Ht & _ & _ & Hf & _).
  exists s. auto.
Defined.


(** * The exit code at concrete runs with failing statements *)

(** The final commit fails after the two records were inserted: lines
    116-118 end the run with code 1, the file read to its end. *)
Example final_commit_failure_exits_1 :
  let out := main_faulty (P := plain) final_commit_fails good_file (initial []) in
  exit_code (fst out) = 1%Z /\ imported_count (snd out) = 2 /\
  length (committed (snd out)) = 0.
Proof. vm_compute. repeat split. Qed.

(** The commit after the hundredth row fails: line 106 counts one error and
    the run completes with code 0, every row committed by the final
    commit. *)
Example batch_commit_failure_is_row_error :
  let w := answering "" (Readable (repeat groceries 150) true) in
  let out := main_faulty (P := plain) batch_commit_fails w (initial []) in
  exit_code (fst out) = 0%Z /\ imported_count (snd out) = 150 /\
  error_count (snd out) = 1 /\ length (committed (snd out)) = 150.
Proof. vm_compute. repeat split. Qed.

Lemma exit_code_with_faults_witness :
  exit_code (fst (main_faulty (P := plain) final_commit_fails good_file
                              (initial []))) <> 0%Z /\
  exit_code (fst (main_faulty (P := plain) no_faults good_file
                              (initial []))) = 0%Z.
Proof.
  split.
  - destruct (exit_code_with_faults (P := plain) final_commit_fails good_file [])
      as (_ & H & _).
    apply H. do 4 right. split; [left; reflexivity|]. right. left. reflexivity.
  - destruct (exit_code_with_faults (P := plain) no_faults good_file [])
      as ([H | H] & Hiff & _); [exact H|].
    exfalso.
    assert (exit_code (fst (main_faulty (P := plain) no_faults good_file
                                        (initial []))) <> 0%Z) as Hne
        by (rewrite H; discriminate).
    apply Hiff in Hne.
    destruct Hne as [Hc | [Hc | [[_ Hc] | [[Hc _] | [_ [Hc | [Hc | Hc]]]]]]];
      try discriminate Hc.
    + apply Hc. reflexivity.
    + apply Hc. exists [groceries; salary]. reflexivity.
Defined.
